(** * Bulk reconciliation of downtime reasons

    A shallow embedding of the upload handler [process_upload] of [app.py]
    and of the standalone importer ([load_excel], [expand_per_asset],
    [upsert_data]) of [bulk-upload-from-file.py], with the two SQL statements
    they send to PostgreSQL, and the properties of the merge they perform.

    Conventions of the embedding:
    - a Python [str] is a [string] whose characters are code points below 256;
    - the table [tbl_downtime_reason] is the list of its rows, in storage
      order; a row is identified by its position;
    - [NOW()] is the start time of the transaction, so it is one value [now]
      for a whole call;
    - the order of [list(set(...))] is unspecified in Python; it is the order
      of [elements] here, and no statement below depends on it. *)

From Stdlib Require Import ZArith Ascii String.
From stdpp Require Import gmap strings list.

(** ** Text *)

(** [str.isspace] on code points below 256: TAB..CR, FS..US, space, NEL and
    the no-break space. *)
Definition isspace (c : ascii) : bool :=
  let n := N_of_ascii c in
  ((9 <=? n) && (n <=? 13) || (28 <=? n) && (n <=? 32)
   || (n =? 133) || (n =? 160))%N.

Fixpoint lstrip (s : string) : string :=
  match s with
  | EmptyString => EmptyString
  | String c s' => if isspace c then lstrip s' else s
  end.

Fixpoint rstrip (s : string) : string :=
  match s with
  | EmptyString => EmptyString
  | String c s' =>
      match rstrip s' with
      | EmptyString => if isspace c then EmptyString else String c EmptyString
      | r => String c r
      end
  end.

(** [str.strip()] without argument. *)
Definition strip (s : string) : string := rstrip (lstrip s).

(** A text made of whitespace only. *)
Fixpoint blank (s : string) : bool :=
  match s with
  | EmptyString => true
  | String c s' => isspace c && blank s'
  end.

(** ** Rows *)

(** A row of the staging table [temp_downtime_reason] (SQL alias [t]); also
    one dict of the Python list [records]. *)
Record Candidate := {
  t_name : string;
  t_asset_id : Z;
  t_delete_status_id : Z
}.

(** A row of [tbl_downtime_reason] (SQL alias [m]). *)
Record Association := {
  m_name : string;
  m_asset_id : Z;
  m_delete_status_id : Z;
  m_created_at : Z;
  m_updated_at : Z
}.

#[global] Instance Candidate_eq_dec : EqDecision Candidate.
Proof. solve_decision. Defined.

#[global] Instance Association_eq_dec : EqDecision Association.
Proof. solve_decision. Defined.

Definition pair_of_candidate (t : Candidate) : string * Z :=
  (t_name t, t_asset_id t).

Definition pair_of_row (m : Association) : string * Z :=
  (m_name m, m_asset_id m).

(** [m.name = t.name AND m.asset_id = t.asset_id] *)
Definition matches (m : Association) (t : Candidate) : bool :=
  String.eqb (m_name m) (t_name t) && Z.eqb (m_asset_id m) (t_asset_id t).

(** At most one row per (name, asset_id) pair. *)
Definition unique_pairs (tbl : list Association) : Prop :=
  NoDup (pair_of_row <$> tbl).

(** ** The store *)

(** What a call asks of the database, in the order it asks: a connection
    ([engine.begin()] takes one from the pool), the four statements, the
    commit. The connection is no statement: only the other five are
    received by the store. *)
Inductive statement :=
  | CONNECT
  | CREATE_TEMP_TABLE
  | INSERT_INTO_temp
  | INSERT_INTO_tbl
  | UPDATE_tbl
  | COMMIT.

(** The database between transactions: the committed rows, and every
    statement it has been sent so far (most recent last). *)
Record database := {
  tbl_downtime_reason : list Association;
  received : list statement
}.

(** What a connection sees inside a transaction. The staging table exists
    from [CREATE TEMP TABLE] until the transaction ends ([ON COMMIT DROP]). *)
Record connection := {
  main : list Association;
  temp_downtime_reason : option (list Candidate);
  sent : list statement
}.

Inductive result (A : Type) :=
  | Returned (a : A)
  | Raised.
Arguments Returned {A} a.
Arguments Raised {A}.

(** A computation on a connection: it returns or raises, and leaves the
    connection in some state either way. *)
Definition Tx (A : Type) : Type := connection → result A * connection.

Definition tx_ret {A} (a : A) : Tx A := λ c, (Returned a, c).

Definition tx_bind {A B} (x : Tx A) (f : A → Tx B) : Tx B :=
  λ c, match x c with
       | (Returned a, c') => f a c'
       | (Raised, c') => (Raised, c')
       end.

Notation "x ←ᵗ e1 ; e2" := (tx_bind e1 (λ x, e2))
  (at level 100, e1 at next level, right associativity).

(** The rows the insert statement selects: staged rows with no matching row
    in the table as it is when the statement starts. A statement does not
    see the rows it inserts itself, so a pair staged twice is selected
    twice. *)
Definition absent (tbl : list Association) (t : Candidate) : bool :=
  negb (existsb (λ m, matches m t) tbl).

Definition new_row (now : Z) (t : Candidate) : Association :=
  {| m_name := t_name t; m_asset_id := t_asset_id t;
     m_delete_status_id := t_delete_status_id t;
     m_created_at := now; m_updated_at := now |}.

Definition insert_phase (now : Z) (temp : list Candidate)
    (tbl : list Association) : list Association :=
  new_row now <$> List.filter (absent tbl) temp.

(** [UPDATE ... FROM]: a row of the table joined with at least one staged
    row is updated once, from one of the staged rows it joins with. *)
Definition refresh (now : Z) (temp : list Candidate) (m : Association)
    : Association :=
  match List.find (matches m) temp with
  | Some t =>
      {| m_name := m_name m; m_asset_id := m_asset_id m;
         m_delete_status_id := t_delete_status_id t;
         m_created_at := m_created_at m; m_updated_at := now |}
  | None => m
  end.

Definition joined (temp : list Candidate) (m : Association) : bool :=
  existsb (matches m) temp.

(** The effect of one statement that did not fail, with its [rowcount]. *)
Definition run (now : Z) (records : list Candidate) (s : statement)
    (c : connection) : result nat * connection :=
  match s with
  | CREATE_TEMP_TABLE =>
      match temp_downtime_reason c with
      | None =>
          (Returned 0,
           {| main := main c; temp_downtime_reason := Some [];
              sent := sent c |})
      | Some _ => (Raised, c)
      end
  | INSERT_INTO_temp =>
      match temp_downtime_reason c with
      | Some rows =>
          (Returned (length records),
           {| main := main c; temp_downtime_reason := Some (rows ++ records);
              sent := sent c |})
      | None => (Raised, c)
      end
  | INSERT_INTO_tbl =>
      match temp_downtime_reason c with
      | Some rows =>
          let new := insert_phase now rows (main c) in
          (Returned (length new),
           {| main := main c ++ new; temp_downtime_reason := Some rows;
              sent := sent c |})
      | None => (Raised, c)
      end
  | UPDATE_tbl =>
      match temp_downtime_reason c with
      | Some rows =>
          (Returned (length (List.filter (joined rows) (main c))),
           {| main := refresh now rows <$> main c;
              temp_downtime_reason := Some rows; sent := sent c |})
      | None => (Raised, c)
      end
  | CONNECT | COMMIT => (Returned 0, c)
  end.

(** [conn.execute]: the statement reaches the store, which fails it when the
    environment [faults] says so (lost connection, constraint of the table,
    value out of range of a column, time-out, ...). The staging statement is
    executed with the list [records] as its parameters: with an empty list
    no value is bound to its parameters and SQLAlchemy raises before it
    sends anything. *)
Definition conn_execute (faults : statement → bool) (now : Z)
    (records : list Candidate) (s : statement) : Tx nat :=
  λ c,
    match s, records with
    | INSERT_INTO_temp, [] => (Raised, c)
    | _, _ =>
        let c := {| main := main c;
                    temp_downtime_reason := temp_downtime_reason c;
                    sent := sent c ++ [s] |} in
        if faults s then (Raised, c) else run now records s c
    end.

(** [with engine.begin() as conn: body]: raise when no connection can be
    had, the body not being run; otherwise commit when the body returns,
    roll back when it raises, and let the exception through. *)
Definition engine_begin {A} (faults : statement → bool) (body : Tx A)
    (db : database) : result A * database :=
  if faults CONNECT then (Raised, db)
  else
    let conn := {| main := tbl_downtime_reason db;
                   temp_downtime_reason := None;
                   sent := received db |} in
    match body conn with
    | (Returned a, c) =>
        if faults COMMIT then
          (Raised, {| tbl_downtime_reason := tbl_downtime_reason db;
                      received := sent c ++ [COMMIT] |})
        else
          (Returned a, {| tbl_downtime_reason := main c;
                          received := sent c ++ [COMMIT] |})
    | (Raised, c) =>
        (Raised, {| tbl_downtime_reason := tbl_downtime_reason db;
                    received := sent c |})
    end.

(** The body of the [with] block, the same text in both programs (the
    staging columns are BIGINT in one and INTEGER in the other). *)
Definition upsert_block (faults : statement → bool) (now : Z)
    (records : list Candidate) : Tx (nat * nat) :=
  _ ←ᵗ conn_execute faults now records CREATE_TEMP_TABLE;
  _ ←ᵗ conn_execute faults now records INSERT_INTO_temp;
  inserted ←ᵗ conn_execute faults now records INSERT_INTO_tbl;
  updated ←ᵗ conn_execute faults now records UPDATE_tbl;
  tx_ret (inserted, updated).

(** ** The upload handler ([app.py]) *)

(** [str(r).strip()] is kept when it is not the empty text. *)
Definition nonempty (s : string) : bool := negb (String.eqb s "").

(** [list(set([str(r).strip() for r in reason_names if str(r).strip()]))] *)
Definition clean_reason_names (reason_names : list string) : list string :=
  elements
    (list_to_set (List.filter nonempty (strip <$> reason_names))
       : gset string).

(** The two nested loops that fill [records]. *)
Definition expand (reason_names : list string) (asset_ids : list Z)
    : list Candidate :=
  reason ← reason_names;
  asset_id ← asset_ids;
  [ {| t_name := reason; t_asset_id := asset_id; t_delete_status_id := 0 |} ].

(** What the handler gives back: a JSON body with its HTTP status, or the
    exception of [int(a)], which is raised outside the [try] block and
    leaves the handler as it is (the framework then answers 500, without
    the handler's JSON body). *)
Inductive response :=
  | Ok200 (inserted updated total_processed : nat)
  | Error400 (error : string)
  | Error500_database
  | ValueError_int.

Section Handler.

  (** A JSON value of the list [asset_ids], and Python's [int] on it: [Some z]
      when [int(a)] returns [z], [None] when it raises. *)
Variable json : Type.
Variable int : json → option Z.

  (** The JSON body: [None] when [request.get_json()] is empty; a key that
      is missing reads as the empty list ([data.get(key, [])]). Reason names
      are texts, on which [str] is the identity. *)
Record upload := {
    reason_names : list string;
    asset_ids : list json
  }.

Definition process_upload (faults : statement → bool) (now : Z)
      (data : option upload) (db : database) : response * database :=
    match data with
    | None => (Error400 "No data provided", db)
    | Some data =>
        match reason_names data with
        | [] => (Error400 "No reason names provided", db)
        | _ :: _ =>
            match asset_ids data with
            | [] => (Error400 "No assets selected", db)
            | _ :: _ =>
                let reason_names := clean_reason_names (reason_names data) in
                match mapM int (asset_ids data) with
                | None => (ValueError_int, db)
                | Some asset_ids =>
                    match reason_names with
                    | [] =>
                        (Error400
                           "No valid reason names found after cleaning", db)
                    | _ :: _ =>
                        let records := expand reason_names asset_ids in
                        match
                          engine_begin faults (upsert_block faults now records)
                            db
                        with
                        | (Returned (inserted, updated), db') =>
                            (Ok200 inserted updated (length records), db')
                        | (Raised, db') => (Error500_database, db')
                        end
                    end
                end
            end
        end
    end.

End Handler.

Arguments reason_names {json} _.
Arguments asset_ids {json} _.
Arguments Build_upload {json} _ _.
Arguments process_upload {json} int faults now data db.

(** ** The standalone importer ([bulk-upload-from-file.py]) *)

(** A cell of the reason column as pandas reads it: a text, or NaN for a
    blank cell. *)
Inductive cell :=
  | Text (s : string)
  | NaN.

#[global] Instance cell_eq_dec : EqDecision cell.
Proof. solve_decision. Defined.

(** [astype(str)] on one cell, where pandas turns a missing value into the
    text ["nan"] (the versions before 3.0; for the others see
    [load_excel_keeping_missing] below). *)
Definition astype_str (c : cell) : string :=
  match c with
  | Text s => s
  | NaN => "nan"
  end.

(** [load_excel], from the cells of the reason column to the column [name]
    of the frame it returns. *)
Definition load_excel (column : list cell) : list string :=
  List.filter nonempty (strip ∘ astype_str <$> column).

(** [drop_duplicates(subset=["name", "asset_id"])]: the first row of each
    pair is kept. *)
Fixpoint drop_duplicates_from (seen : list (string * Z))
    (rows : list Candidate) : list Candidate :=
  match rows with
  | [] => []
  | t :: rows' =>
      if decide (pair_of_candidate t ∈ seen) then
        drop_duplicates_from seen rows'
      else t :: drop_duplicates_from (pair_of_candidate t :: seen) rows'
  end.

Definition drop_duplicates : list Candidate → list Candidate :=
  drop_duplicates_from [].

Definition expand_per_asset (ASSET_IDS : list Z) (df : list string)
    : list Candidate :=
  drop_duplicates (expand df ASSET_IDS).

(** [upsert_data] returns nothing, and raises again what the block raised. *)
Definition upsert_data (faults : statement → bool) (now : Z)
    (df : list Candidate) (db : database) : result unit * database :=
  match engine_begin faults (upsert_block faults now df) db with
  | (Returned _, db') => (Returned (), db')
  | (Raised, db') => (Raised, db')
  end.

Definition bulk_upload (ASSET_IDS : list Z) (faults : statement → bool)
    (now : Z) (column : list cell) (db : database)
    : result unit * database :=
  let reasons_df := load_excel column in
  let expanded_df := expand_per_asset ASSET_IDS reasons_df in
  upsert_data faults now expanded_df db.

(** ** Reading the model *)

(** The number of distinct (name, asset_id) pairs among staged rows. *)
Definition distinct_pairs (records : list Candidate) : nat :=
  size (list_to_set (pair_of_candidate <$> records) : gset (string * Z)).

Definition no_faults : statement → bool := λ _, false.

Definition empty_database : database :=
  {| tbl_downtime_reason := []; received := [] |}.

(** The table a call leaves when no statement fails: the rows of the insert
    statement are appended, then the update statement goes over all rows,
    the appended ones included. *)
Definition merged (now : Z) (records : list Candidate)
    (tbl : list Association) : list Association :=
  refresh now records <$> (tbl ++ insert_phase now records tbl).

Definition inserted_count (now : Z) (records : list Candidate)
    (tbl : list Association) : nat :=
  length (insert_phase now records tbl).

Definition updated_count (now : Z) (records : list Candidate)
    (tbl : list Association) : nat :=
  length (List.filter (joined records) (tbl ++ insert_phase now records tbl)).

(** The statements of one call, in the order they are sent. *)
Definition script : list statement :=
  [CREATE_TEMP_TABLE; INSERT_INTO_temp; INSERT_INTO_tbl; UPDATE_tbl; COMMIT].

(** A JSON integer, on which [int] is the identity. *)
Definition int_of_integer (a : Z) : option Z := Some a.

(** The JSON numbers and booleans, and Python's [int] on them, which never
    raises: an integer is itself, a float [m * 2 ^ e] is truncated towards
    zero, [true] is 1 and [false] is 0. *)
Inductive json_number :=
  | JInt (z : Z)
  | JFloat (m e : Z)
  | JBool (b : bool).

Definition int_of_number (a : json_number) : option Z :=
  match a with
  | JInt z => Some z
  | JFloat m e =>
      Some (if (0 <=? e)%Z then m * 2 ^ e else Z.quot m (2 ^ (- e)))%Z
  | JBool b => Some (if b then 1 else 0)%Z
  end.

(** What a call at time [now] may do to the table, [requested] telling the
    (label, asset) pairs the call was asked about. A row that was there is
    still at its place with its name, asset and creation time; it is as it
    was, or its pair is requested and it has status 0 and update time
    [now]. A row that was not there is of a requested pair and has status 0
    and both times [now]. *)
Definition frame_bounded (requested : string → Z → Prop) (now : Z)
    (old new : list Association) : Prop :=
  (∀ k m, old !! k = Some m →
     ∃ m', new !! k = Some m' ∧
       m_name m' = m_name m ∧ m_asset_id m' = m_asset_id m ∧
       m_created_at m' = m_created_at m ∧
       (m' = m ∨
        (requested (m_name m) (m_asset_id m) ∧
         m_delete_status_id m' = 0%Z ∧ m_updated_at m' = now))) ∧
  (∀ k m', new !! k = Some m' → length old ≤ k →
     requested (m_name m') (m_asset_id m') ∧
     m_delete_status_id m' = 0%Z ∧ m_created_at m' = now ∧
     m_updated_at m' = now).

(** The pairs a request asks about: a kept label and a converted asset
    id. *)
Definition requested_by {json} (int : json → option Z)
    (data : option (upload json)) (label : string) (asset : Z) : Prop :=
  ∃ d ids, data = Some d ∧ mapM int (asset_ids d) = Some ids ∧
    label ∈ clean_reason_names (reason_names d) ∧ asset ∈ ids.

(** ** The importer where pandas keeps the missing values *)

(** [astype(str)] turns a missing value into the text ["nan"] in some
    versions of pandas ([astype_str], [load_excel] and [expand_per_asset]
    above) and keeps it missing in others (3.0 and later). In these the
    label of a blank cell stays missing through [str.strip()], passes the
    comparison with the empty text, is a value of its own for
    [drop_duplicates], and is sent to the store as the float NaN, which
    the text column of the staging table holds as ["NaN"]. *)
Definition strip_cell (c : cell) : cell :=
  match c with
  | Text s => Text (strip s)
  | NaN => NaN
  end.

Definition load_excel_keeping_missing (column : list cell) : list cell :=
  List.filter (λ c, negb (bool_decide (c = Text ""))) (strip_cell <$> column).

Fixpoint first_of_each_from (seen rows : list (cell * Z))
    : list (cell * Z) :=
  match rows with
  | [] => []
  | row :: rows' =>
      if decide (row ∈ seen) then first_of_each_from seen rows'
      else row :: first_of_each_from (row :: seen) rows'
  end.

(** The text the staging table holds for a label. *)
Definition stored_name (c : cell) : string :=
  match c with
  | Text s => s
  | NaN => "NaN"
  end.

Definition expand_per_asset_keeping_missing (ASSET_IDS : list Z)
    (df : list cell) : list Candidate :=
  (λ row : cell * Z,
     {| t_name := stored_name row.1; t_asset_id := row.2;
        t_delete_status_id := 0 |})
  <$> first_of_each_from []
        (name ← df; asset_id ← ASSET_IDS; [(name, asset_id)]).

(** ** More text *)

(** [str.lower] on code points below 256: A..Z and the capital letters of
    Latin-1 (all of 192..222 but the multiplication sign). *)
Definition lower_char (c : ascii) : ascii :=
  let n := N_of_ascii c in
  if ((65 <=? n) && (n <=? 90)
      || (192 <=? n) && (n <=? 222) && negb (n =? 215))%N
  then ascii_of_N (n + 32) else c.

Fixpoint lower (s : string) : string :=
  match s with
  | EmptyString => EmptyString
  | String c s' => String (lower_char c) (lower s')
  end.

(** [s.split(sep)] for a separator of one character: never empty. *)
Fixpoint split (sep : ascii) (s : string) : list string :=
  match s with
  | EmptyString => [EmptyString]
  | String c s' =>
      if Ascii.eqb c sep then EmptyString :: split sep s'
      else match split sep s' with
           | item :: items => String c item :: items
           | [] => [String c EmptyString]
           end
  end.

(** [s.endswith(suffix)] *)
Fixpoint endswith (s suffix : string) : bool :=
  String.eqb s suffix ||
  match s with
  | EmptyString => false
  | String _ s' => endswith s' suffix
  end.

(** [Series.unique()]: the values in the order they first appear. *)
Fixpoint unique_from (seen : list string) (values : list string)
    : list string :=
  match values with
  | [] => []
  | v :: values' =>
      if decide (v ∈ seen) then unique_from seen values'
      else v :: unique_from (v :: seen) values'
  end.

Definition unique : list string → list string := unique_from [].

(** A text that does not begin with whitespace. *)
Definition starts_clean (s : string) : Prop :=
  match s with
  | EmptyString => True
  | String c _ => isspace c = false
  end.

(** A text made of commas and whitespace only. *)
Fixpoint only_separators (s : string) : bool :=
  match s with
  | EmptyString => true
  | String c s' => (Ascii.eqb c "," || isspace c) && only_separators s'
  end.

(** ** Frames *)

(** A frame as pandas reads it from a sheet: the column labels (texts) and
    the rows, each with one cell per column. *)
Record DataFrame := {
  columns : list string;
  rows : list (list cell)
}.

(** The cells of the column at position [j]. *)
Definition column (j : nat) (df : DataFrame) : list cell :=
  (λ row, default NaN (row !! j)) <$> rows df.

(** The positions at which a label occurs among the column labels. *)
Definition positions (label : string) (labels : list string) : list nat :=
  List.filter (λ j, bool_decide (labels !! j = Some label))
    (seq 0 (length labels)).

(** [df.empty]: no row or no column. *)
Definition df_empty (df : DataFrame) : bool :=
  match rows df, columns df with
  | [], _ | _, [] => true
  | _, _ => false
  end.

(** ** The importer, from its environment to the table *)

(** [load_excel] on the frame read from the file. The labels are put in
    lower case and trimmed; the reason column is the configured one, which
    must be a label, or the first one. With a label that occurs once,
    [df[reason_col]] is that column; with a label that occurs several times
    it is a frame, on which [.str] raises. *)
Definition load_excel_df (REASON_COLUMN : string) (df : DataFrame)
    : result (list string) :=
  let labels := (λ label, strip (lower label)) <$> columns df in
  let reason_col :=
    if nonempty REASON_COLUMN then
      if bool_decide (REASON_COLUMN ∈ labels) then Returned REASON_COLUMN
      else Raised
    else
      match labels with
      | label :: _ => Returned label
      | [] => Raised
      end in
  match reason_col with
  | Raised => Raised
  | Returned reason_col =>
      match positions reason_col labels with
      | [j] => Returned (load_excel (column j df))
      | _ => Raised
      end
  end.

(** [main] of the importer, on the frame that [pd.read_excel(FILE_PATH)]
    returned. *)
Definition importer_main (REASON_COLUMN : string) (ASSET_IDS : list Z)
    (faults : statement → bool) (now : Z) (df : DataFrame) (db : database)
    : result unit * database :=
  match load_excel_df REASON_COLUMN df with
  | Raised => (Raised, db)
  | Returned reasons_df =>
      let expanded_df := expand_per_asset ASSET_IDS reasons_df in
      upsert_data faults now expanded_df db
  end.

(** What the module reads from the environment before anything else. *)
Record settings := {
  cfg_PG_PORT : Z;
  cfg_FILE_PATH : string;
  cfg_ASSET_IDS : list Z;
  cfg_REASON_COLUMN : string
}.

Inductive startup :=
  | Configured (cfg : settings)
  | ValueError (message : string)
  | ValueError_int_conversion.

(** A value of the environment that Python takes as true: set, and not the
    empty text. *)
Definition truthy (value : option string) : bool :=
  match value with
  | Some v => nonempty v
  | None => false
  end.

Section Environment.

(** [os.getenv], and Python's [int] on a text: [None] when it raises. *)
Variable getenv : string → option string.
Variable int : string → option Z.

(** The statements of the module from [load_dotenv()] to the list
    comprehension that converts [ASSET_IDS], in their order. *)
Definition configure : startup :=
  match int (default "5432" (getenv "PG_PORT")) with
  | None => ValueError_int_conversion
  | Some PG_PORT =>
      let FILE_PATH := getenv "FILE_PATH" in
      let ASSET_IDS := default "" (getenv "ASSET_IDS") in
      let REASON_COLUMN :=
        lower (strip (default "" (getenv "REASON_COLUMN"))) in
      if negb (truthy (getenv "PG_HOST") && truthy (getenv "PG_DBNAME")
               && truthy (getenv "PG_USER") && truthy (getenv "PG_PASSWORD"))
      then
        ValueError
          "One or more required PostgreSQL environment variables are missing!"
      else if negb (truthy FILE_PATH) then
        ValueError "FILE_PATH is required in .env"
      else if negb (nonempty ASSET_IDS) then
        ValueError "ASSET_IDS is required in .env"
      else
        match mapM (λ x, int (strip x)) (split "," ASSET_IDS) with
        | None => ValueError_int_conversion
        | Some ids =>
            Configured
              {| cfg_PG_PORT := PG_PORT;
                 cfg_FILE_PATH := default "" FILE_PATH;
                 cfg_ASSET_IDS := ids;
                 cfg_REASON_COLUMN := REASON_COLUMN |}
        end
  end.

End Environment.

(** ** The other routes of the web application *)

(** [df[col].dropna()], on cells that are texts or NaN. *)
Definition dropna (cells : list cell) : list string :=
  omap (λ c, match c with Text s => Some s | NaN => None end) cells.

(** The values [parse_file] lists for one column:
    [dropna().astype(str).str.strip()], without the empty texts, each
    once. *)
Definition column_values (cells : list cell) : list string :=
  unique (List.filter nonempty (strip <$> dropna cells)).

(** [fillna('').astype(str)] on one cell. *)
Definition fillna_str (c : cell) : string :=
  match c with
  | Text s => s
  | NaN => ""
  end.

Inductive parsed :=
  | Parse200 (columns : list string) (preview_rows : list (list string))
      (column_data : list (string * list string)) (total_rows : nat)
  | Parse400 (error : string)
  | Parse400_exception.

Section Parse.

(** The content of an uploaded file, and the two readers of pandas: [None]
    when the reader raises. *)
Variable bytes : Type.
Variable read_excel read_csv : bytes → option DataFrame.

(** [parse_file]; [file] is [request.files['file']], with its name and its
    content, when there is one. *)
Definition parse_file (file : option (string * bytes)) : parsed :=
  match file with
  | None => Parse400 "No file uploaded"
  | Some (filename, content) =>
      if String.eqb filename "" then Parse400 "No file selected"
      else
        let filename := lower filename in
        let read :=
          if endswith filename ".xlsx" || endswith filename ".xls" then
            Some (read_excel content)
          else if endswith filename ".csv" then Some (read_csv content)
          else None in
        match read with
        | None =>
            Parse400
              "Unsupported file format. Please upload .xlsx, .xls, or .csv"
        | Some None => Parse400_exception
        | Some (Some df) =>
            if df_empty df then Parse400 "Uploaded file contains no data"
            else
              let columns := strip <$> columns df in
              let preview_rows :=
                (λ row : list cell, fillna_str <$> row) <$> take 5 (rows df)
              in
              let column_data :=
                mapM (λ col,
                        match positions col columns with
                        | [j] => Some (col, column_values (column j df))
                        | _ => None
                        end) columns in
              match column_data with
              | None => Parse400_exception
              | Some column_data =>
                  Parse200 columns preview_rows column_data
                    (length (rows df))
              end
        end
  end.

End Parse.

Arguments parse_file {bytes} read_excel read_csv file.

(** The two queries of [get_assets]. *)
Inductive assets_query :=
  | Assets_of_company (company_id : Z)
  | Assets_of_sections (company_id : Z) (section_ids : list Z).

Inductive api_response (A : Type) :=
  | Api200 (data : A)
  | Api400 (error : string)
  | Api500.
Arguments Api200 {A} data.
Arguments Api400 {A} error.
Arguments Api500 {A}.

Section Assets.

(** A row the query returns; Python's [int] on a text; the database
    answering a query: [None] when it raises. *)
Variable asset : Type.
Variable int : string → option Z.
Variable execute : assets_query → option (list asset).

Definition run_query (q : assets_query) : api_response (list asset) :=
  match execute q with
  | Some assets => Api200 assets
  | None => Api500
  end.

(** [get_assets]; the two arguments are [request.args.get('company_id')]
    and [request.args.get('section_ids', '')]. *)
Definition get_assets (company_id : option string) (section_ids : string)
    : api_response (list asset) :=
  if negb (truthy company_id) then Api400 "company_id is required"
  else
    match int (default "" company_id) with
    | None => Api500
    | Some company =>
        if nonempty section_ids then
          let items :=
            List.filter nonempty (strip <$> split "," section_ids) in
          match mapM int items with
          | None => Api500
          | Some [] => run_query (Assets_of_company company)
          | Some section_id_list =>
              run_query (Assets_of_sections company section_id_list)
          end
        else run_query (Assets_of_company company)
    end.

End Assets.

Arguments get_assets {asset} int execute company_id section_ids.

(** * Properties *)

(** ** The transaction *)

Lemma faults_cases (faults : statement → bool) :
  (∀ s, faults s = false) ∨ (∃ s, faults s = true).
Proof.
  destruct (faults CONNECT) eqn:H0; [right; eauto|].
  destruct (faults CREATE_TEMP_TABLE) eqn:H1; [right; eauto|].
  destruct (faults INSERT_INTO_temp) eqn:H2; [right; eauto|].
  destruct (faults INSERT_INTO_tbl) eqn:H3; [right; eauto|].
  destruct (faults UPDATE_tbl) eqn:H4; [right; eauto|].
  destruct (faults COMMIT) eqn:H5; [right; eauto|].
  left. intros []; assumption.
Qed.

(** Without a fault the block, given rows to stage, commits the merged
    table and reports the two row counts. *)
Lemma upsert_block_commits faults now records db :
  (∀ s, faults s = false) →
  records ≠ [] →
  engine_begin faults (upsert_block faults now records) db =
    (Returned (inserted_count now records (tbl_downtime_reason db),
               updated_count now records (tbl_downtime_reason db)),
     {| tbl_downtime_reason := merged now records (tbl_downtime_reason db);
        received := received db ++ script |}).
Proof.
  intros Hf Hne. destruct records as [|t records]; [done|].
  unfold engine_begin, upsert_block, tx_bind, conn_execute, tx_ret.
  cbn. repeat (rewrite Hf; cbn).
  unfold merged, inserted_count, updated_count, script.
  by rewrite <- !(assoc_L (++)).
Qed.

(** With a fault anywhere the block raises and the committed rows are the
    ones from before. *)
Lemma upsert_block_rolls_back faults now records db s :
  faults s = true →
  ∃ log,
    engine_begin faults (upsert_block faults now records) db =
      (Raised, {| tbl_downtime_reason := tbl_downtime_reason db;
                  received := log |}).
Proof.
  intros Hs.
  unfold engine_begin, upsert_block, tx_bind, conn_execute, tx_ret.
  destruct (faults CONNECT) eqn:H0; [destruct db; eauto|]. cbn.
  destruct (faults CREATE_TEMP_TABLE) eqn:H1; cbn; [eauto|].
  destruct records as [|t records]; cbn; [eauto|].
  destruct (faults INSERT_INTO_temp) eqn:H2; cbn; [eauto|].
  destruct (faults INSERT_INTO_tbl) eqn:H3; cbn; [eauto|].
  destruct (faults UPDATE_tbl) eqn:H4; cbn; [eauto|].
  destruct (faults COMMIT) eqn:H5; cbn; [eauto|].
  destruct s; congruence.
Qed.

(** Without rows to stage the block raises as well. *)
Lemma upsert_block_nothing_to_stage faults now db :
  ∃ log,
    engine_begin faults (upsert_block faults now []) db =
      (Raised, {| tbl_downtime_reason := tbl_downtime_reason db;
                  received := log |}).
Proof.
  unfold engine_begin, upsert_block, tx_bind, conn_execute, tx_ret.
  destruct (faults CONNECT) eqn:H0; [destruct db; eauto|]. cbn.
  destruct (faults CREATE_TEMP_TABLE) eqn:H1; cbn; eauto.
Qed.

Lemma upsert_block_returned faults now records db r db' :
  engine_begin faults (upsert_block faults now records) db =
    (Returned r, db') →
  (∀ s, faults s = false) ∧
  records ≠ [] ∧
  r = (inserted_count now records (tbl_downtime_reason db),
       updated_count now records (tbl_downtime_reason db)) ∧
  db' = {| tbl_downtime_reason :=
             merged now records (tbl_downtime_reason db);
           received := received db ++ script |}.
Proof.
  intros H. destruct (faults_cases faults) as [Hf|[s Hs]].
  - destruct records as [|t records].
    + destruct (upsert_block_nothing_to_stage faults now db) as [log Hl].
      congruence.
    + rewrite (upsert_block_commits _ _ _ _ Hf) in H by done.
      by simplify_eq.
  - destruct (upsert_block_rolls_back _ now records db _ Hs) as [log Hl].
    congruence.
Qed.

Lemma upsert_block_raised faults now records db db' :
  engine_begin faults (upsert_block faults now records) db = (Raised, db') →
  tbl_downtime_reason db' = tbl_downtime_reason db.
Proof.
  intros H. destruct (faults_cases faults) as [Hf|[s Hs]].
  - destruct records as [|t records].
    + destruct (upsert_block_nothing_to_stage faults now db) as [log Hl].
      rewrite Hl in H. by simplify_eq.
    + rewrite (upsert_block_commits _ _ _ _ Hf) in H by done. discriminate.
  - destruct (upsert_block_rolls_back _ now records db _ Hs) as [log Hl].
    rewrite Hl in H. by simplify_eq.
Qed.

(** ** The two statements *)

Lemma matches_pair m t :
  matches m t = true ↔ pair_of_row m = pair_of_candidate t.
Proof.
  unfold matches, pair_of_row, pair_of_candidate.
  rewrite andb_true_iff, String.eqb_eq, Z.eqb_eq.
  split; [intros [-> ->]; reflexivity | intros [= -> ->]; done].
Qed.

Lemma elem_of_List_filter {A} (p : A → bool) l x :
  x ∈ List.filter p l ↔ p x = true ∧ x ∈ l.
Proof. rewrite !list_elem_of_In, List.filter_In. tauto. Qed.

Lemma List_filter_none {A} (p : A → bool) l :
  (∀ x, x ∈ l → p x = false) → List.filter p l = [].
Proof.
  induction l as [|a l IH]; intros H; [done|]. cbn.
  rewrite (H a) by left. apply IH. intros x Hx. apply H. by right.
Qed.

Lemma NoDup_fmap_List_filter {A B} (f : A → B) (p : A → bool) l :
  NoDup (f <$> l) → NoDup (f <$> List.filter p l).
Proof.
  induction l as [|a l IH]; cbn; [done|].
  rewrite NoDup_cons. intros [Ha Hl]. destruct (p a); cbn; [|by apply IH].
  apply NoDup_cons. split; [|by apply IH].
  intros Hin. apply Ha.
  apply list_elem_of_fmap in Hin as (x & -> & Hx).
  apply elem_of_List_filter in Hx as [_ Hx].
  by apply list_elem_of_fmap_2.
Qed.

Lemma absent_true tbl t :
  absent tbl t = true ↔ pair_of_candidate t ∉ pair_of_row <$> tbl.
Proof.
  unfold absent. rewrite negb_true_iff, <- not_true_iff_false.
  apply not_iff_compat. rewrite existsb_exists. split.
  - intros (m & Hm & Hmt). apply matches_pair in Hmt. rewrite <- Hmt.
    apply list_elem_of_fmap_2. by apply list_elem_of_In.
  - intros (m & Hmt & Hm)%list_elem_of_fmap. exists m.
    split; [by apply list_elem_of_In|]. by apply matches_pair.
Qed.

Lemma joined_true records m :
  joined records m = true ↔ pair_of_row m ∈ pair_of_candidate <$> records.
Proof.
  unfold joined. rewrite existsb_exists. split.
  - intros (t & Ht & Hmt). apply matches_pair in Hmt. rewrite Hmt.
    apply list_elem_of_fmap_2. by apply list_elem_of_In.
  - intros (t & Hmt & Ht)%list_elem_of_fmap. exists t.
    split; [by apply list_elem_of_In|]. by apply matches_pair.
Qed.

Lemma pair_of_new_row now t :
  pair_of_row (new_row now t) = pair_of_candidate t.
Proof. done. Qed.

Lemma pair_of_refresh now records m :
  pair_of_row (refresh now records m) = pair_of_row m.
Proof. unfold refresh. by destruct (List.find _ _). Qed.

Lemma pairs_insert_phase now records tbl :
  pair_of_row <$> insert_phase now records tbl =
  pair_of_candidate <$> List.filter (absent tbl) records.
Proof.
  unfold insert_phase. rewrite <- list_fmap_compose.
  by apply list_fmap_ext.
Qed.

(** The pairs of the table after a call: the old ones, in place, followed
    by the staged pairs that were absent. *)
Lemma pairs_merged now records tbl :
  pair_of_row <$> merged now records tbl =
  (pair_of_row <$> tbl) ++
  (pair_of_candidate <$> List.filter (absent tbl) records).
Proof.
  unfold merged. rewrite <- list_fmap_compose.
  rewrite (list_fmap_ext _ pair_of_row)
    by (intros ? ? ?; apply pair_of_refresh).
  by rewrite fmap_app, pairs_insert_phase.
Qed.

(** Every staged pair is in the table once the insert statement has run. *)
Lemma staged_pair_present now records tbl t :
  t ∈ records →
  pair_of_candidate t ∈ pair_of_row <$> (tbl ++ insert_phase now records tbl).
Proof.
  intros Ht. rewrite fmap_app, pairs_insert_phase, elem_of_app.
  destruct (absent tbl t) eqn:Ha.
  - right. apply list_elem_of_fmap_2, elem_of_List_filter. done.
  - left. apply not_true_iff_false in Ha.
    rewrite absent_true in Ha.
    by destruct (decide (pair_of_candidate t ∈ pair_of_row <$> tbl)).
Qed.

Lemma unique_pairs_after_insert now records tbl :
  unique_pairs tbl →
  NoDup (pair_of_candidate <$> records) →
  unique_pairs (tbl ++ insert_phase now records tbl).
Proof.
  intros Htbl Hrec. unfold unique_pairs.
  rewrite fmap_app, pairs_insert_phase. apply NoDup_app.
  split; [done|]. split; [|by apply NoDup_fmap_List_filter].
  intros x Hx (t & -> & Ht)%list_elem_of_fmap.
  apply elem_of_List_filter in Ht as [Ha _].
  by apply absent_true in Ha.
Qed.



Lemma unique_pairs_merged now records tbl :
  unique_pairs tbl →
  NoDup (pair_of_candidate <$> records) →
  unique_pairs (merged now records tbl).
Proof.
  intros Htbl Hrec. unfold unique_pairs. rewrite pairs_merged.
  pose proof (unique_pairs_after_insert now records tbl Htbl Hrec) as H.
  unfold unique_pairs in H. by rewrite fmap_app, pairs_insert_phase in H.
Qed.

(** Once a batch has been merged, none of its rows is absent. *)
Lemma nothing_absent_after_merge now records tbl :
  List.filter (absent (merged now records tbl)) records = [].
Proof.
  apply List_filter_none. intros t Ht. apply not_true_iff_false.
  rewrite absent_true, pairs_merged. intros Hn. apply Hn.
  pose proof (staged_pair_present now records tbl t Ht) as H.
  by rewrite fmap_app, pairs_insert_phase in H.
Qed.

(** ** Trimming *)

Lemma lstrip_blank s : blank s = true → lstrip s = "".
Proof.
  induction s as [|c s IH]; cbn; [done|].
  intros [Hc Hs]%andb_true_iff. rewrite Hc. by apply IH.
Qed.


Lemma strip_blank s : blank s = true → strip s = "".
Proof. intros H. unfold strip. by rewrite (lstrip_blank _ H). Qed.

Lemma rstrip_empty_blank s : rstrip s = "" → blank s = true.
Proof.
  induction s as [|c s IH]; cbn; [done|].
  destruct (rstrip s); [|done].
  destruct (isspace c); [|done]. intros _. by apply IH.
Qed.

Lemma blank_lstrip s : blank (lstrip s) = true → blank s = true.
Proof.
  induction s as [|c s IH]; cbn; [done|].
  destruct (isspace c) eqn:Hc; cbn; [done|]. rewrite ?Hc. done.
Qed.

(** A text is dropped by the cleaning exactly when it is whitespace only. *)
Lemma strip_empty_iff s : strip s = "" ↔ blank s = true.
Proof.
  split; [|apply strip_blank].
  intros H. by apply blank_lstrip, rstrip_empty_blank.
Qed.





(** ** Building the candidates *)

Lemma nonempty_true s : nonempty s = true ↔ s ≠ "".
Proof.
  unfold nonempty. rewrite negb_true_iff, <- not_true_iff_false.
  by rewrite String.eqb_eq.
Qed.

Lemma elem_of_clean_reason_names reason_names s :
  s ∈ clean_reason_names reason_names ↔
  s ≠ "" ∧ ∃ r, r ∈ reason_names ∧ s = strip r.
Proof.
  unfold clean_reason_names.
  rewrite elem_of_elements, elem_of_list_to_set, elem_of_List_filter.
  rewrite nonempty_true, list_elem_of_fmap.
  split; intros (Hne & r & H1 & H2); eauto.
Qed.

Lemma NoDup_clean_reason_names reason_names :
  NoDup (clean_reason_names reason_names).
Proof. unfold clean_reason_names. apply NoDup_elements. Qed.

Lemma clean_reason_names_nil reason_names :
  clean_reason_names reason_names = [] ↔
  ∀ r, r ∈ reason_names → blank r = true.
Proof.
  split.
  - intros H r Hr. apply strip_empty_iff.
    destruct (decide (strip r = "")) as [|Hne]; [done|].
    assert (strip r ∈ clean_reason_names reason_names) as Hin
      by (apply elem_of_clean_reason_names; eauto).
    rewrite H in Hin. by apply elem_of_nil in Hin.
  - intros H. apply elem_of_nil_inv. intros s Hs.
    apply elem_of_clean_reason_names in Hs as (Hne & r & Hr & ->).
    apply Hne, strip_empty_iff. by apply H.
Qed.

Lemma length_expand reason_names asset_ids :
  length (expand reason_names asset_ids) =
  length reason_names * length asset_ids.
Proof.
  unfold expand. induction reason_names as [|r l IH]; [done|].
  rewrite bind_cons, length_app, IH. cbn [length Nat.mul]. f_equal.
  clear IH. induction asset_ids as [|a k IHk]; [done|].
  rewrite bind_cons, length_app, IHk. done.
Qed.

(** The handler never has an empty batch to stage: it has turned down the
    empty lists before. *)
Lemma handler_records_not_nil {json} (int : json → option Z) r l a k ids :
  mapM int (a :: k) = Some ids → expand (r :: l) ids ≠ [].
Proof.
  intros Hint%length_mapM Hnil%(f_equal length).
  rewrite length_expand in Hnil. destruct ids; cbn in *; lia.
Qed.

Lemma elem_of_expand reason_names asset_ids t :
  t ∈ expand reason_names asset_ids ↔
  t_name t ∈ reason_names ∧ t_asset_id t ∈ asset_ids ∧
  t_delete_status_id t = 0%Z.
Proof.
  unfold expand. rewrite list_elem_of_bind. split.
  - intros (r & Ht & Hr). apply list_elem_of_bind in Ht as (a & Ht & Ha).
    apply list_elem_of_singleton in Ht as ->. done.
  - intros (Hr & Ha & Hs). exists (t_name t). split; [|done].
    apply list_elem_of_bind. exists (t_asset_id t). split; [|done].
    apply list_elem_of_singleton. destruct t; cbn in *. by subst.
Qed.

Lemma elem_of_pairs_expand reason_names asset_ids r a :
  (r, a) ∈ pair_of_candidate <$> expand reason_names asset_ids ↔
  r ∈ reason_names ∧ a ∈ asset_ids.
Proof.
  rewrite list_elem_of_fmap. split.
  - intros (t & [= -> ->] & Ht). apply elem_of_expand in Ht. tauto.
  - intros [Hr Ha].
    exists {| t_name := r; t_asset_id := a; t_delete_status_id := 0 |}.
    split; [done|]. by apply elem_of_expand.
Qed.

Lemma NoDup_pairs_expand reason_names asset_ids :
  NoDup reason_names → NoDup asset_ids →
  NoDup (pair_of_candidate <$> expand reason_names asset_ids).
Proof.
  intros Hl Ha. unfold expand.
  induction Hl as [|r l Hr Hl IH]; [constructor|].
  rewrite bind_cons, fmap_app. apply NoDup_app. split; [|split; [|done]].
  - clear -Ha. induction Ha as [|a k Hk Ha IH]; [constructor|].
    rewrite bind_cons. cbn. apply NoDup_cons. split; [|done].
    intros (t & [= Hn Hi] & Ht)%list_elem_of_fmap.
    apply list_elem_of_bind in Ht as (a' & Ht & Ha').
    apply list_elem_of_singleton in Ht as ->. cbn in Hi. by subst.
  - intros [r' a'] Hin Hin'.
    apply list_elem_of_fmap in Hin as (t & [= -> ->] & Ht).
    apply list_elem_of_bind in Ht as (a & Ht & _).
    apply list_elem_of_singleton in Ht as ->. cbn in Hin'.
    apply (elem_of_pairs_expand l asset_ids) in Hin' as [Hin' _]. done.
Qed.

Lemma elem_of_drop_duplicates_from seen rows t :
  t ∈ drop_duplicates_from seen rows → t ∈ rows.
Proof.
  revert seen. induction rows as [|t' rows IH]; intros seen; cbn; [done|].
  case_decide.
  - intros ?%IH. by right.
  - intros [->|?%IH]%elem_of_cons; [by left|by right].
Qed.

Lemma elem_of_pairs_drop_duplicates_from seen rows p :
  p ∈ pair_of_candidate <$> drop_duplicates_from seen rows ↔
  p ∈ pair_of_candidate <$> rows ∧ p ∉ seen.
Proof.
  revert seen. induction rows as [|t rows IH]; intros seen; cbn.
  - rewrite elem_of_nil. tauto.
  - case_decide as Hseen; cbn; rewrite ?elem_of_cons, IH, ?elem_of_cons.
    + split; [tauto|]. intros [[->|?] ?]; tauto.
    + destruct (decide (p = pair_of_candidate t)) as [->|]; tauto.
Qed.

Lemma NoDup_pairs_drop_duplicates_from seen rows :
  NoDup (pair_of_candidate <$> drop_duplicates_from seen rows).
Proof.
  revert seen. induction rows as [|t rows IH]; intros seen; cbn.
  - constructor.
  - case_decide; cbn; [done|]. apply NoDup_cons. split; [|done].
    rewrite elem_of_pairs_drop_duplicates_from, elem_of_cons. tauto.
Qed.

(** Rows that repeat no pair are all kept. *)
Lemma drop_duplicates_from_NoDup seen rows :
  NoDup (pair_of_candidate <$> rows) →
  (∀ p, p ∈ pair_of_candidate <$> rows → p ∉ seen) →
  drop_duplicates_from seen rows = rows.
Proof.
  revert seen. induction rows as [|t rows IH]; intros seen; cbn; [done|].
  rewrite NoDup_cons. intros [Ht Hrows] Hseen.
  rewrite decide_False by (apply Hseen; left).
  f_equal. apply IH; [done|]. intros p Hp.
  rewrite elem_of_cons. intros [->|Hin]; [done|].
  by apply (Hseen p); [right|].
Qed.

(** X8. The importer stages one row per distinct reason and distinct asset:
    the number of rows it stages is the number of distinct reasons times the
    number of distinct asset ids, whatever is repeated in the sheet or in
    the configuration. *)
Lemma length_expand_per_asset ASSET_IDS df :
  length (expand_per_asset ASSET_IDS df) =
  size (list_to_set df : gset string) *
  size (list_to_set ASSET_IDS : gset Z).
Proof.
  unfold expand_per_asset, drop_duplicates.
  change (size (list_to_set df : gset string))
    with (length (elements (list_to_set df : gset string))).
  change (size (list_to_set ASSET_IDS : gset Z))
    with (length (elements (list_to_set ASSET_IDS : gset Z))).
  rewrite <- length_expand, <- (length_fmap pair_of_candidate).
  rewrite <- (length_fmap pair_of_candidate (expand (elements _) _)).
  apply Permutation_length, NoDup_Permutation.
  - apply NoDup_pairs_drop_duplicates_from.
  - apply NoDup_pairs_expand; apply NoDup_elements.
  - intros [r a].
    rewrite elem_of_pairs_drop_duplicates_from, !elem_of_pairs_expand.
    rewrite !elem_of_elements, !elem_of_list_to_set, elem_of_nil. tauto.
Qed.

Lemma elem_of_load_excel column s :
  s ∈ load_excel column ↔
  s ≠ "" ∧ ∃ c, c ∈ column ∧ s = strip (astype_str c).
Proof.
  unfold load_excel.
  rewrite elem_of_List_filter, nonempty_true, list_elem_of_fmap.
  split; intros (Hne & c & H1 & H2); eauto.
Qed.

(** ** The handler, case by case *)

Section HandlerFacts.

Context {json : Type} (int : json → option Z).

  (** A call answers 200 only after the five statements went through, and
      then the counts and the table are the ones of the merge. *)
Lemma process_upload_ok_inv faults now data db i u n db' :
    process_upload int faults now data db = (Ok200 i u n, db') →
    ∃ (d : upload json) ids,
      data = Some d ∧ mapM int (asset_ids d) = Some ids ∧
      (∀ s, faults s = false) ∧
      let records := expand (clean_reason_names (reason_names d)) ids in
      i = inserted_count now records (tbl_downtime_reason db) ∧
      u = updated_count now records (tbl_downtime_reason db) ∧
      n = length records ∧
      db' = {| tbl_downtime_reason :=
                 merged now records (tbl_downtime_reason db);
               received := received db ++ script |}.
  Proof.
    unfold process_upload. destruct data as [d|]; [|done].
    destruct (reason_names d) as [|r l] eqn:Er; [done|].
    destruct (asset_ids d) as [|a k] eqn:Ea; [done|].
    destruct (mapM int (a :: k)) as [ids|] eqn:Hint; [|done].
    destruct (clean_reason_names (r :: l)) as [|r' l'] eqn:Ec; [done|].
    destruct (engine_begin _ _ _) as [[[i0 u0]|] db0] eqn:Hrun; [|done].
    intros [= <- <- <- <-].
    apply upsert_block_returned in Hrun as (Hf & _ & [= -> ->] & ->).
    exists d, ids. rewrite Er, Ea, Ec. done.
  Qed.

  (** Whatever the request and the faults, the committed rows after a call
      are the rows from before or the merge of a batch built by [expand]. *)
Lemma process_upload_table faults now data db :
    tbl_downtime_reason (process_upload int faults now data db).2 =
      tbl_downtime_reason db ∨
    ∃ names ids,
      tbl_downtime_reason (process_upload int faults now data db).2 =
        merged now (expand names ids) (tbl_downtime_reason db).
  Proof.
    unfold process_upload. destruct data as [d|]; [|by left].
    destruct (reason_names d) as [|r l]; [by left|].
    destruct (asset_ids d) as [|a k]; [by left|].
    destruct (mapM int (a :: k)) as [ids|]; [|by left].
    destruct (clean_reason_names (r :: l)) as [|r' l'] eqn:Ec; [by left|].
    destruct (engine_begin _ _ _) as [[[i0 u0]|] db0] eqn:Hrun; cbn.
    - apply upsert_block_returned in Hrun as (_ & _ & _ & ->). right. eauto.
    - apply upsert_block_raised in Hrun as ->. by left.
  Qed.

End HandlerFacts.

(** ** The frame of a merge *)

Lemma refresh_not_joined now records m :
  joined records m = false → refresh now records m = m.
Proof.
  unfold joined, refresh. intros Hj.
  destruct (List.find (matches m) records) as [t|] eqn:Hfind; [|done].
  apply find_some in Hfind as [Ht Hm].
  assert (existsb (matches m) records = true) as He
    by (apply existsb_exists; eauto).
  congruence.
Qed.

Lemma refresh_joined now records m :
  joined records m = true →
  (∀ t, t ∈ records → t_delete_status_id t = 0%Z) →
  refresh now records m =
    {| m_name := m_name m; m_asset_id := m_asset_id m;
       m_delete_status_id := 0; m_created_at := m_created_at m;
       m_updated_at := now |}.
Proof.
  unfold joined, refresh. intros Hj Hz.
  destruct (List.find (matches m) records) as [t|] eqn:Hfind.
  - apply find_some in Hfind as [Ht _]. apply list_elem_of_In in Ht.
    by rewrite (Hz t Ht).
  - apply existsb_exists in Hj as (t & Ht & Hm).
    by rewrite (find_none _ _ Hfind t Ht) in Hm.
Qed.

Lemma frame_bounded_refl requested now tbl :
  frame_bounded requested now tbl tbl.
Proof.
  split.
  - intros k m Hk. exists m. tauto.
  - intros k m' Hk Hle. apply lookup_lt_Some in Hk. lia.
Qed.

Lemma frame_bounded_merged (requested : string → Z → Prop) now records tbl :
  (∀ t, t ∈ records → t_delete_status_id t = 0%Z) →
  (∀ t, t ∈ records → requested (t_name t) (t_asset_id t)) →
  frame_bounded requested now tbl (merged now records tbl).
Proof.
  intros Hz Hreq.
  assert (∀ m, joined records m = true →
               requested (m_name m) (m_asset_id m)) as Hjoined.
  { intros m (t & Hpair & Ht)%joined_true%list_elem_of_fmap.
    injection Hpair as -> ->. by apply Hreq. }
  unfold merged. split.
  - intros k m Hk. exists (refresh now records m). split.
    { rewrite list_lookup_fmap, (lookup_app_l_Some _ _ _ _ Hk). done. }
    destruct (joined records m) eqn:Hj.
    + rewrite (refresh_joined now records m Hj Hz). cbn.
      repeat split; try done. right. split; [by apply Hjoined|done].
    + rewrite (refresh_not_joined now records m Hj). tauto.
  - intros k m'. rewrite list_lookup_fmap. intros Hk Hle.
    rewrite lookup_app_r in Hk by done.
    destruct (insert_phase now records tbl !! (k - length tbl))
      as [m|] eqn:Hm; [|done].
    cbn in Hk. injection Hk as <-.
    apply list_elem_of_lookup_2 in Hm. unfold insert_phase in Hm.
    apply list_elem_of_fmap in Hm as (t & -> & Ht).
    apply elem_of_List_filter in Ht as [_ Ht].
    assert (joined records (new_row now t) = true) as Hj.
    { apply joined_true. rewrite pair_of_new_row.
      by apply list_elem_of_fmap_2. }
    rewrite (refresh_joined now records _ Hj Hz). cbn.
    split; [by apply Hreq|done].
Qed.

Lemma expand_status_zero names ids t :
  t ∈ expand names ids → t_delete_status_id t = 0%Z.
Proof. intros H. apply elem_of_expand in H. tauto. Qed.

(** ** The counts of a successful call *)


(** The importer never stages a pair twice, so it keeps the table free of
    repeated pairs. *)
Lemma bulk_upload_keeps_unique_pairs ASSET_IDS faults now column db :
  unique_pairs (tbl_downtime_reason db) →
  unique_pairs
    (tbl_downtime_reason (bulk_upload ASSET_IDS faults now column db).2).
Proof.
  intros Htbl. unfold bulk_upload, upsert_data.
  destruct (engine_begin _ _ _) as [[r|] db'] eqn:Hrun; cbn.
  - apply upsert_block_returned in Hrun as (_ & _ & _ & ->). cbn.
    apply unique_pairs_merged; [done|].
    apply NoDup_pairs_drop_duplicates_from.
  - apply upsert_block_raised in Hrun as ->. done.
Qed.

(** ** The claims *)

(** C1 (the code departs from it). The claim: a successful call returns
    counts with inserted + updated = |candidates|, the update phase counting
    only the pairs that existed before the call. The code runs the update
    statement after the insert statement, in the same transaction, so the
    rows just inserted are joined and counted again: for the one label "a"
    and the one asset 10 on an empty table the handler answers inserted = 1,
    updated = 1, total_processed = 1. *)
Theorem C1_update_counts_the_inserted_rows (now : Z) :
  (process_upload int_of_integer no_faults now
     (Some (Build_upload ["a"] [10%Z])) empty_database).1 = Ok200 1 1 1.
Proof. vm_compute. reflexivity. Qed.

(** C2 (the code departs from it). The claim: a call keeps the table at one
    row per (label, target) pair at most, also when the target list repeats
    an identifier. The handler stages one row per element of [asset_ids],
    and the insert statement selects every staged row whose pair is absent
    from the table as it was when the statement started: for the label "a"
    and the assets 10, 10 the empty table ends with two rows of the pair
    ("a", 10). *)
Theorem C2_repeated_asset_id_inserts_the_pair_twice (now : Z) :
  unique_pairs (tbl_downtime_reason empty_database) ∧
  pair_of_row <$> tbl_downtime_reason
    (process_upload int_of_integer no_faults now
       (Some (Build_upload ["a"] [10%Z; 10%Z])) empty_database).2
    = [("a", 10%Z); ("a", 10%Z)] ∧
  ¬ unique_pairs
      (tbl_downtime_reason
         (process_upload int_of_integer no_faults now
            (Some (Build_upload ["a"] [10%Z; 10%Z])) empty_database).2).
Proof.
  split; [constructor|]. split; [vm_compute; reflexivity|].
  unfold unique_pairs.
  replace (pair_of_row <$> _) with [("a", 10%Z); ("a", 10%Z)]
    by (vm_compute; reflexivity).
  rewrite NoDup_cons. intros [Hin _]. apply Hin. by left.
Qed.

(** C3 (the code departs from it). The claim: a target identifier repeated
    in the input adds no candidate, at both call sites. The importer drops
    the repeated pairs ([drop_duplicates]); the handler does not: for the
    label "a" and the assets 10, 10 it builds two records of the one pair
    and reports total_processed = 2, where the importer keeps one row. *)
Theorem C3_handler_keeps_repeated_asset_ids (now : Z) :
  length (expand (clean_reason_names ["a"]) [10%Z; 10%Z]) = 2 ∧
  distinct_pairs (expand (clean_reason_names ["a"]) [10%Z; 10%Z]) = 1 ∧
  (process_upload int_of_integer no_faults now
     (Some (Build_upload ["a"] [10%Z; 10%Z])) empty_database).1
    = Ok200 2 2 2 ∧
  length (expand_per_asset [10%Z; 10%Z] (load_excel [Text "a"])) = 1.
Proof. repeat split; vm_compute; reflexivity. Qed.

(** C4 (the code departs from it). The claim: for the labels " Jam ", "jam",
    "Breakdown" and the targets 10, 20 on an empty table there are 6
    candidates and the call returns inserted = 6 and updated = 0. The code
    builds the 6 candidates and inserts 6 rows, and its update statement
    then counts these 6 rows: it answers updated = 6. *)
Theorem C4_scenario_A_answers_updated_6 (now : Z) :
  length (expand (clean_reason_names [" Jam "; "jam"; "Breakdown"])
            [10%Z; 20%Z]) = 6 ∧
  (process_upload int_of_integer no_faults now
     (Some (Build_upload [" Jam "; "jam"; "Breakdown"] [10%Z; 20%Z]))
     empty_database).1 = Ok200 6 6 6.
Proof. split; vm_compute; reflexivity. Qed.





(** An invalid request is turned down before the first statement: with a
    400 answer, or by the exception of [int]. *)
Lemma invalid_request_rejected {json} (int : json → option Z)
    faults now (data : upload json) db :
  (∀ r, r ∈ reason_names data → blank r = true) ∨
  asset_ids data = [] ∨
  (∃ a, a ∈ asset_ids data ∧ int a = None) →
  (process_upload int faults now (Some data) db).2 = db ∧
  ((∃ error,
      (process_upload int faults now (Some data) db).1 = Error400 error) ∨
   (process_upload int faults now (Some data) db).1 = ValueError_int).
Proof.
  intros H. unfold process_upload.
  destruct (reason_names data) as [|r l] eqn:Er; [eauto|].
  destruct (asset_ids data) as [|a k] eqn:Ea; [eauto|].
  destruct (mapM int (a :: k)) as [ids|] eqn:Hint; [|eauto].
  destruct H as [Hblank|[?|(a' & Ha' & Hnone)]]; [|done|].
  - apply clean_reason_names_nil in Hblank. rewrite Hblank. eauto.
  - assert (mapM int (a :: k) = None) as Hn; [|congruence].
    apply mapM_None_2, Exists_exists. eauto.
Qed.

(** With asset ids that all convert, blank labels or no asset at all get a
    400 answer. *)
Lemma blank_request_answered_400 {json} (int : json → option Z)
    faults now (data : upload json) db :
  (∀ r, r ∈ reason_names data → blank r = true) ∨ asset_ids data = [] →
  is_Some (mapM int (asset_ids data)) →
  ∃ error,
    (process_upload int faults now (Some data) db).1 = Error400 error.
Proof.
  intros H [ids Hint]. unfold process_upload.
  destruct (reason_names data) as [|r l] eqn:Er; [eauto|].
  destruct (asset_ids data) as [|a k] eqn:Ea; [eauto|].
  rewrite Hint. destruct H as [Hblank|?]; [|done].
  apply clean_reason_names_nil in Hblank. rewrite Hblank. eauto.
Qed.

(** C6. Reconciliation is atomic: when a statement of the call fails (the
    creation or the filling of the staging table, the insert statement, the
    update statement, or the commit), the committed table after the call is
    the table from before, and the caller gets one database error: the
    handler answers 500, the importer raises. *)
Theorem C6_failed_call_leaves_the_table {json} (int : json → option Z)
    faults now (data : upload json) ids (df : list Candidate) db s :
  faults s = true →
  clean_reason_names (reason_names data) ≠ [] →
  mapM int (asset_ids data) = Some ids →
  ids ≠ [] →
  ((process_upload int faults now (Some data) db).1 = Error500_database ∧
   tbl_downtime_reason (process_upload int faults now (Some data) db).2 =
     tbl_downtime_reason db) ∧
  ((upsert_data faults now df db).1 = Raised ∧
   tbl_downtime_reason (upsert_data faults now df db).2 =
     tbl_downtime_reason db).
Proof.
  intros Hs Hclean Hint Hids. split.
  - unfold process_upload.
    destruct (reason_names data) as [|r l]; [done|].
    destruct (asset_ids data) as [|a k].
    { cbn in Hint. injection Hint as <-. done. }
    rewrite Hint.
    destruct (clean_reason_names (r :: l)) as [|r' l']; [done|].
    destruct (upsert_block_rolls_back faults now (expand (r' :: l') ids)
                db s Hs) as [log ->].
    done.
  - unfold upsert_data.
    destruct (upsert_block_rolls_back faults now df db s Hs) as [log ->].
    done.
Qed.

Lemma C6_failed_call_leaves_the_table_witness :
  let faults := λ s, match s with UPDATE_tbl => true | _ => false end in
  let row := {| m_name := "a"; m_asset_id := 10; m_delete_status_id := 5;
                m_created_at := 1; m_updated_at := 1 |} in
  let db := {| tbl_downtime_reason := [row]; received := [] |} in
  let data := Build_upload ["a"; "b"] [10%Z; 20%Z] in
  let df := expand ["a"; "b"] [10%Z; 20%Z] in
  ((process_upload int_of_integer faults 7 (Some data) db).1
     = Error500_database ∧
   tbl_downtime_reason (process_upload int_of_integer faults 7 (Some data) db).2
     = [row]) ∧
  ((upsert_data faults 7 df db).1 = Raised ∧
   tbl_downtime_reason (upsert_data faults 7 df db).2 = [row]).
Proof.
  intros faults row db data df.
  apply (C6_failed_call_leaves_the_table int_of_integer faults 7 data
           [10%Z; 20%Z] df db UPDATE_tbl).
  - reflexivity.
  - vm_compute. discriminate.
  - reflexivity.
  - discriminate.
Defined.

(** C7, as amended. The claim: an input whose labels are all empty after
    trimming, or whose target list is empty, or one of whose target
    identifiers is not representable as an integer, fails with a validation
    error before any storage operation. What the code does: in each of the
    three cases, an identifier counting as not representable when [int]
    raises on it, the store is as before (no statement sent, no row
    changed) and the call ends with a 400 answer or with the exception of
    [int]; it is the 400 answer when the labels are blank or the target
    list is empty and every identifier converts; and it is the exception of
    [int], which leaves the handler uncaught, when labels are given and
    [int] raises on an identifier. *)
Theorem C7_invalid_input_fails_before_storage {json} (int : json → option Z)
    faults now (data : upload json) db :
  ((∀ r, r ∈ reason_names data → blank r = true) ∨
   asset_ids data = [] ∨
   (∃ a, a ∈ asset_ids data ∧ int a = None) →
   (process_upload int faults now (Some data) db).2 = db ∧
   ((∃ error,
       (process_upload int faults now (Some data) db).1 = Error400 error) ∨
    (process_upload int faults now (Some data) db).1 = ValueError_int)) ∧
  ((∀ r, r ∈ reason_names data → blank r = true) ∨ asset_ids data = [] →
   is_Some (mapM int (asset_ids data)) →
   ∃ error,
     (process_upload int faults now (Some data) db).1 = Error400 error) ∧
  ((∃ a, a ∈ asset_ids data ∧ int a = None) →
   reason_names data ≠ [] →
   (process_upload int faults now (Some data) db).1 = ValueError_int).
Proof.
  split; [apply invalid_request_rejected|].
  split; [apply blank_request_answered_400|].
  intros (a & Ha & Hnone) Hr. unfold process_upload.
  destruct (reason_names data) as [|r l]; [done|].
  destruct (asset_ids data) as [|a' k] eqn:Ea.
  { by apply elem_of_nil in Ha. }
  assert (mapM int (a' :: k) = None) as ->; [|done].
  apply mapM_None_2, Exists_exists. eauto.
Qed.

Lemma C7_invalid_input_fails_before_storage_witness :
  (process_upload (λ a : string, None) no_faults 7
     (Some (Build_upload ["a"] ["x"])) empty_database).1 = ValueError_int.
Proof.
  destruct (C7_invalid_input_fails_before_storage (λ a : string, None)
              no_faults 7 (Build_upload ["a"] ["x"]) empty_database)
    as (_ & _ & Hint).
  apply Hint.
  - exists "x". split; [|reflexivity].
    apply list_elem_of_singleton. reflexivity.
  - discriminate.
Defined.

(** C7, as stated, fails on a target identifier that is not an integer but
    that [int] converts: the float 10.7 (3011782250804019 * 2 ^ -48) is
    truncated to 10, the call is answered 200 and the row ("a", 10) is
    stored. *)
Lemma C7_counterexample_fraction_is_truncated :
  process_upload int_of_number no_faults 7
    (Some (Build_upload ["a"] [JFloat 3011782250804019 (-48)]))
    empty_database
  = (Ok200 1 1 1,
     {| tbl_downtime_reason :=
          [{| m_name := "a"; m_asset_id := 10; m_delete_status_id := 0;
              m_created_at := 7; m_updated_at := 7 |}];
        received := script |}).
Proof. vm_compute. reflexivity. Qed.




(** C9. Every write is frame-bounded: after any call, of the handler or of
    the importer, failed or not, every row that was in the table is still
    there, at its place, with its label, its target and its creation time,
    and is either untouched or, its pair being one the call was asked
    about, has status 0 and the update time of the call; every other row is
    a row of this call, of a pair it was asked about, with status 0. No row
    is deleted, no row of another pair is touched, and no status other than
    0 is written. *)
Theorem C9_writes_are_frame_bounded {json} (int : json → option Z)
    faults now (data : option (upload json)) ASSET_IDS column db :
  frame_bounded (requested_by int data) now (tbl_downtime_reason db)
    (tbl_downtime_reason (process_upload int faults now data db).2) ∧
  frame_bounded (λ label asset, label ∈ load_excel column ∧ asset ∈ ASSET_IDS)
    now (tbl_downtime_reason db)
    (tbl_downtime_reason (bulk_upload ASSET_IDS faults now column db).2).
Proof.
  split.
  - unfold process_upload.
    destruct data as [d|]; [|apply frame_bounded_refl].
    destruct (reason_names d) as [|r l] eqn:Er; [apply frame_bounded_refl|].
    destruct (asset_ids d) as [|a k] eqn:Ea; [apply frame_bounded_refl|].
    destruct (mapM int (a :: k)) as [ids|] eqn:Hint;
      [|apply frame_bounded_refl].
    destruct (clean_reason_names (r :: l)) as [|r' l'] eqn:Ec;
      [apply frame_bounded_refl|].
    destruct (engine_begin _ _ _) as [[[i0 u0]|] db0] eqn:Hrun; cbn.
    + apply upsert_block_returned in Hrun as (_ & _ & _ & ->). cbn [tbl_downtime_reason].
      apply frame_bounded_merged; [intros t; apply expand_status_zero|].
      intros t (Hn & Ha & _)%elem_of_expand.
      exists d, ids. rewrite Er, Ea, Ec. done.
    + apply upsert_block_raised in Hrun as ->. apply frame_bounded_refl.
  - unfold bulk_upload, upsert_data.
    destruct (engine_begin _ _ _) as [[r|] db'] eqn:Hrun; cbn.
    + apply upsert_block_returned in Hrun as (_ & _ & _ & ->). cbn [tbl_downtime_reason].
      apply frame_bounded_merged.
      * intros t Ht. apply elem_of_drop_duplicates_from in Ht.
        by apply expand_status_zero in Ht.
      * intros t Ht. apply elem_of_drop_duplicates_from in Ht.
        apply elem_of_expand in Ht. tauto.
    + apply upsert_block_raised in Hrun as ->. apply frame_bounded_refl.
Qed.

Lemma elem_of_first_of_each_from seen rows row :
  row ∈ first_of_each_from seen rows ↔ row ∈ rows ∧ row ∉ seen.
Proof.
  revert seen. induction rows as [|x rows IH]; intros seen; cbn.
  - rewrite elem_of_nil. tauto.
  - case_decide as Hseen; rewrite ?elem_of_cons, IH, ?elem_of_cons.
    + split; [tauto|]. intros [[->|?] ?]; tauto.
    + destruct (decide (row = x)) as [->|]; tauto.
Qed.

(** C10, as amended. The claim: in the importer a blank cell of the reason
    column, read as NaN, is turned into the text "nan" by the conversion to
    text, is not dropped as an empty label, and is staged. What the code
    does depends on what [astype(str)] does to a missing value, which the
    version of pandas decides: where it converts it, the blank cell becomes
    the label "nan" and is staged with every configured asset; where it
    keeps it, the blank cell stays a missing value, is not dropped either,
    and is staged with every configured asset under the name "NaN". *)
Theorem C10_blank_cell_is_staged_as_nan (ASSET_IDS : list Z)
    (column : list cell) (a : Z) :
  NaN ∈ column →
  a ∈ ASSET_IDS →
  ("nan" ∈ load_excel column ∧
   {| t_name := "nan"; t_asset_id := a; t_delete_status_id := 0 |}
     ∈ expand_per_asset ASSET_IDS (load_excel column)) ∧
  (NaN ∈ load_excel_keeping_missing column ∧
   {| t_name := "NaN"; t_asset_id := a; t_delete_status_id := 0 |}
     ∈ expand_per_asset_keeping_missing ASSET_IDS
         (load_excel_keeping_missing column)).
Proof.
  intros Hnan Ha. split.
  - assert ("nan" ∈ load_excel column) as Hl.
    { apply elem_of_load_excel. split; [done|]. exists NaN. done. }
    split; [done|].
    assert (("nan", a) ∈ pair_of_candidate <$>
              expand_per_asset ASSET_IDS (load_excel column)) as Hp.
    { unfold expand_per_asset, drop_duplicates.
      rewrite elem_of_pairs_drop_duplicates_from, elem_of_pairs_expand.
      rewrite elem_of_nil. tauto. }
    apply list_elem_of_fmap in Hp as (t & Hpair & Ht).
    pose proof (elem_of_drop_duplicates_from _ _ _ Ht) as Hz.
    apply expand_status_zero in Hz.
    destruct t as [n i z]. cbn in Hz. injection Hpair as <- <-. by subst z.
  - assert (NaN ∈ load_excel_keeping_missing column) as Hl.
    { unfold load_excel_keeping_missing. apply elem_of_List_filter.
      split; [done|]. apply list_elem_of_fmap. exists NaN. done. }
    split; [done|]. unfold expand_per_asset_keeping_missing.
    apply list_elem_of_fmap. exists (NaN, a). split; [done|].
    apply elem_of_first_of_each_from. split; [|apply not_elem_of_nil].
    apply list_elem_of_bind. exists NaN. split; [|done].
    apply list_elem_of_bind. exists a. split; [|done].
    by apply list_elem_of_singleton.
Qed.

Lemma C10_blank_cell_is_staged_as_nan_witness :
  ("nan" ∈ load_excel [Text " Jam "; NaN; Text ""] ∧
   {| t_name := "nan"; t_asset_id := 20; t_delete_status_id := 0 |}
     ∈ expand_per_asset [10%Z; 20%Z]
         (load_excel [Text " Jam "; NaN; Text ""])) ∧
  (NaN ∈ load_excel_keeping_missing [Text " Jam "; NaN; Text ""] ∧
   {| t_name := "NaN"; t_asset_id := 20; t_delete_status_id := 0 |}
     ∈ expand_per_asset_keeping_missing [10%Z; 20%Z]
         (load_excel_keeping_missing [Text " Jam "; NaN; Text ""])).
Proof.
  apply (C10_blank_cell_is_staged_as_nan [10%Z; 20%Z]
           [Text " Jam "; NaN; Text ""] 20).
  - apply (bool_decide_unpack (NaN ∈ [Text " Jam "; NaN; Text ""])).
    vm_compute. exact I.
  - apply (bool_decide_unpack (20%Z ∈ [10%Z; 20%Z])).
    vm_compute. exact I.
Defined.

(** C10, as stated, fails where pandas keeps the missing values: the blank
    cell is not turned into the text "nan"; the label loaded for it is the
    missing value, and the one name staged for a column that holds only a
    blank cell is "NaN". *)
Lemma C10_counterexample_missing_value_is_kept :
  load_excel_keeping_missing [NaN] = [NaN] ∧
  t_name <$> expand_per_asset_keeping_missing [10%Z]
               (load_excel_keeping_missing [NaN]) = ["NaN"].
Proof. split; vm_compute; reflexivity. Qed.

(** * Further properties *)

(** ** Lower case and trimming *)

Lemma isspace_lower_char c : isspace (lower_char c) = isspace c.
Proof. by destruct c as [[] [] [] [] [] [] [] []]. Qed.

Lemma lower_char_idemp c : lower_char (lower_char c) = lower_char c.
Proof. by destruct c as [[] [] [] [] [] [] [] []]. Qed.

Lemma lower_idemp s : lower (lower s) = lower s.
Proof.
  induction s as [|c s IH]; cbn; [done|]. by rewrite lower_char_idemp, IH.
Qed.

Lemma lower_empty_iff s : lower s = "" ↔ s = "".
Proof. by destruct s. Qed.

Lemma lstrip_lower s : lstrip (lower s) = lower (lstrip s).
Proof.
  induction s as [|c s IH]; cbn; [done|].
  rewrite isspace_lower_char. by destruct (isspace c).
Qed.

Lemma rstrip_lower s : rstrip (lower s) = lower (rstrip s).
Proof.
  induction s as [|c s IH]; cbn; [done|].
  rewrite IH, isspace_lower_char.
  destruct (rstrip s); cbn; [|done]. by destruct (isspace c).
Qed.

(** Trimming and putting in lower case can be done in either order. *)
Lemma strip_lower s : strip (lower s) = lower (strip s).
Proof. unfold strip. by rewrite lstrip_lower, rstrip_lower. Qed.

Lemma starts_clean_lstrip s : starts_clean (lstrip s).
Proof.
  induction s as [|c s IH]; cbn; [done|].
  by destruct (isspace c) eqn:Hc.
Qed.

Lemma lstrip_starts_clean s : starts_clean s → lstrip s = s.
Proof. destruct s as [|c s]; cbn; [done|]. by intros ->. Qed.

Lemma starts_clean_rstrip s : starts_clean s → starts_clean (rstrip s).
Proof.
  destruct s as [|c s]; cbn; [done|]. intros Hc.
  destruct (rstrip s); [by rewrite Hc|done].
Qed.

Lemma rstrip_idemp s : rstrip (rstrip s) = rstrip s.
Proof.
  induction s as [|c s IH]; cbn; [done|].
  destruct (rstrip s) as [|c' r] eqn:Hr.
  - by destruct (isspace c) eqn:Hc; cbn; rewrite ?Hc.
  - change (rstrip (String c (String c' r)))
      with (match rstrip (String c' r) with
            | EmptyString =>
                if isspace c then EmptyString else String c EmptyString
            | r' => String c r'
            end).
    by rewrite IH.
Qed.

(** A trimmed text is not changed by trimming it again. *)
Lemma strip_idemp s : strip (strip s) = strip s.
Proof.
  unfold strip.
  rewrite (lstrip_starts_clean (rstrip (lstrip s)))
    by apply starts_clean_rstrip, starts_clean_lstrip.
  apply rstrip_idemp.
Qed.

(** ** What one call of the handler does to the store *)

Lemma upsert_block_log faults now records db :
  ∃ k, k ≤ 5 ∧
    received (engine_begin faults (upsert_block faults now records) db).2 =
      received db ++ take k script ∧
    (k = 0 ↔ faults CONNECT = true) ∧
    (∀ r, (engine_begin faults (upsert_block faults now records) db).1 =
            Returned r → k = 5).
Proof.
  unfold engine_begin, upsert_block, tx_bind, conn_execute, tx_ret, script.
  destruct (faults CONNECT).
  { exists 0. cbn. rewrite app_nil_r. repeat split; (lia || done). }
  cbn.
  destruct (faults CREATE_TEMP_TABLE); cbn.
  { exists 1. repeat split; (lia || done). }
  destruct records as [|t records]; cbn.
  { exists 1. repeat split; (lia || done). }
  destruct (faults INSERT_INTO_temp); cbn.
  { exists 2. rewrite <- !(assoc_L (++)). repeat split; (lia || done). }
  destruct (faults INSERT_INTO_tbl); cbn.
  { exists 3. rewrite <- !(assoc_L (++)). repeat split; (lia || done). }
  destruct (faults UPDATE_tbl); cbn.
  { exists 4. rewrite <- !(assoc_L (++)). repeat split; (lia || done). }
  destruct (faults COMMIT); cbn;
    exists 5; rewrite <- !(assoc_L (++)); repeat split; (lia || done).
Qed.

Lemma List_filter_all {A} (p : A → bool) l :
  (∀ x, x ∈ l → p x = true) → List.filter p l = l.
Proof.
  induction l as [|a l IH]; intros H; [done|]. cbn.
  rewrite (H a) by left. f_equal. apply IH. intros x Hx. apply H. by right.
Qed.

Lemma inserted_rows_joined now records tbl :
  List.filter (joined records) (insert_phase now records tbl) =
  insert_phase now records tbl.
Proof.
  apply List_filter_all. intros m Hm. unfold insert_phase in Hm.
  apply list_elem_of_fmap in Hm as (t & -> & Ht).
  apply elem_of_List_filter in Ht as [_ Ht].
  apply joined_true. rewrite pair_of_new_row.
  by apply list_elem_of_fmap_2.
Qed.

Lemma length_List_filter_le {A} (p : A → bool) l :
  length (List.filter p l) ≤ length l.
Proof. induction l as [|a l IH]; cbn; [done|]. destruct (p a); cbn; lia. Qed.

Ltac nothing_sent :=
  exists 0; cbn; rewrite app_nil_r;
  repeat split; first [lia | done | intros; discriminate].

(** X1. The statements a call of the handler sends: the store receives, after
    what it had received, the first [k] statements of the fixed sequence
    (create, stage, insert, update, commit). None is sent when the request
    is turned down (a 400 answer, or the exception of [int]); all five are
    sent for a 200 answer; and for a database error none is sent exactly
    when no connection could be had, at least one otherwise. *)
Theorem X1_statements_sent_by_the_handler {json} (int : json → option Z)
    faults now (data : option (upload json)) db :
  ∃ k, k ≤ 5 ∧
    received (process_upload int faults now data db).2 =
      received db ++ take k script ∧
    ((∃ error, (process_upload int faults now data db).1 = Error400 error) ∨
     (process_upload int faults now data db).1 = ValueError_int →
     k = 0) ∧
    ((process_upload int faults now data db).1 = Error500_database →
     (k = 0 ↔ faults CONNECT = true)) ∧
    (∀ i u n, (process_upload int faults now data db).1 = Ok200 i u n →
              k = 5).
Proof.
  unfold process_upload.
  destruct data as [d|]; [|nothing_sent].
  destruct (reason_names d) as [|r l]; [nothing_sent|].
  destruct (asset_ids d) as [|a l']; [nothing_sent|].
  destruct (mapM int (a :: l')) as [ids|]; [|nothing_sent].
  destruct (clean_reason_names (r :: l)) as [|r' l'']; [nothing_sent|].
  destruct (upsert_block_log faults now (expand (r' :: l'') ids) db)
    as (k & Hk5 & Hlog & Hzero & Hret).
  destruct (engine_begin _ _ _) as [[[i u]|] db'] eqn:Hrun; cbn in *.
  - exists k. specialize (Hret _ eq_refl). subst k.
    repeat split; first [done | by intros [[? ?]|?]].
  - exists k. repeat split; first [done | by intros [[? ?]|?] | tauto].
Qed.

(** X5. The counts of a 200 answer: [total_processed] is the number of kept
    labels times the number of asset ids given; [inserted] is the number of
    rows the table gained and is at most [total_processed]; [updated] counts
    the rows that were already there and match a staged row, plus every
    inserted row. *)
Theorem X5_counts_of_a_successful_call {json} (int : json → option Z)
    faults now (data : upload json) db i u n db' :
  process_upload int faults now (Some data) db = (Ok200 i u n, db') →
  n = length (clean_reason_names (reason_names data)) *
      length (asset_ids data) ∧
  length (tbl_downtime_reason db') = length (tbl_downtime_reason db) + i ∧
  i ≤ n ∧
  ∃ ids, mapM int (asset_ids data) = Some ids ∧
    u = length
          (List.filter
             (joined (expand (clean_reason_names (reason_names data)) ids))
             (tbl_downtime_reason db)) + i.
Proof.
  intros Hok.
  apply process_upload_ok_inv in Hok
    as (d & ids & [= <-] & Hint & _ & -> & -> & -> & ->).
  cbn. rewrite length_expand, (length_mapM _ _ _ Hint).
  split; [done|]. split; [|split].
  - unfold merged, inserted_count. by rewrite length_fmap, length_app.
  - unfold inserted_count, insert_phase. rewrite length_fmap.
    rewrite <- length_expand. apply length_List_filter_le.
  - exists ids. split; [done|]. unfold updated_count, inserted_count.
    by rewrite List.filter_app, length_app, inserted_rows_joined.
Qed.

Lemma X5_counts_of_a_successful_call_witness :
  4 = length (clean_reason_names [" Jam "; "jam"]) *
      length [10%Z; 20%Z] ∧
  length (tbl_downtime_reason
            (process_upload int_of_integer no_faults 7
               (Some (Build_upload [" Jam "; "jam"] [10%Z; 20%Z]))
               empty_database).2) = 0 + 4 ∧
  4 ≤ 4 ∧
  ∃ ids, mapM int_of_integer [10%Z; 20%Z] = Some ids ∧
    4 = length
          (List.filter
             (joined (expand (clean_reason_names [" Jam "; "jam"]) ids))
             []) + 4.
Proof.
  apply (X5_counts_of_a_successful_call int_of_integer no_faults 7
           (Build_upload [" Jam "; "jam"] [10%Z; 20%Z]) empty_database
           4 4 4 _).
  vm_compute. reflexivity.
Defined.

(** The table after a call with a given request: as before, or merged with
    the rows built from the request. *)
Lemma process_upload_table_of {json} (int : json → option Z) faults now
    (data : upload json) ids db :
  mapM int (asset_ids data) = Some ids →
  tbl_downtime_reason (process_upload int faults now (Some data) db).2 =
    tbl_downtime_reason db ∨
  tbl_downtime_reason (process_upload int faults now (Some data) db).2 =
    merged now (expand (clean_reason_names (reason_names data)) ids)
      (tbl_downtime_reason db).
Proof.
  intros Hint. unfold process_upload.
  destruct (reason_names data) as [|r l]; [by left|].
  destruct (asset_ids data) as [|a k]; [by left|].
  rewrite Hint.
  destruct (clean_reason_names (r :: l)) as [|r' l'] eqn:Ec; [by left|].
  destruct (engine_begin _ _ _) as [[[i0 u0]|] db0] eqn:Hrun; cbn.
  - apply upsert_block_returned in Hrun as (_ & _ & _ & ->). by right.
  - apply upsert_block_raised in Hrun as ->. by left.
Qed.

(** X3. After a 200 answer every requested pair is stored and active: for
    each kept label and each asset id of the request the table has a row of
    that label and asset with status 0 and the update time of the call. *)
Theorem X3_requested_pairs_are_stored {json} (int : json → option Z)
    faults now (data : upload json) ids db i u n db' r a :
  process_upload int faults now (Some data) db = (Ok200 i u n, db') →
  mapM int (asset_ids data) = Some ids →
  r ∈ clean_reason_names (reason_names data) →
  a ∈ ids →
  ∃ m, m ∈ tbl_downtime_reason db' ∧
    m_name m = r ∧ m_asset_id m = a ∧
    m_delete_status_id m = 0%Z ∧ m_updated_at m = now.
Proof.
  intros Hok Hint Hr Ha.
  apply process_upload_ok_inv in Hok
    as (d & ids' & [= <-] & Hint' & _ & _ & _ & _ & ->).
  rewrite Hint in Hint'. injection Hint' as <-. cbn.
  set (records := expand (clean_reason_names (reason_names data)) ids).
  set (t := {| t_name := r; t_asset_id := a; t_delete_status_id := 0 |}).
  assert (t ∈ records) as Ht by (by apply elem_of_expand).
  pose proof (staged_pair_present now records (tbl_downtime_reason db) t Ht)
    as (m0 & Hpair & Hm0)%list_elem_of_fmap.
  assert (joined records m0 = true) as Hj.
  { apply joined_true. rewrite <- Hpair. by apply list_elem_of_fmap_2. }
  exists (refresh now records m0). split.
  - unfold merged. by apply list_elem_of_fmap_2.
  - rewrite (refresh_joined now records m0 Hj)
      by (intros t'; apply expand_status_zero).
    cbn. injection Hpair as Hn Hi. done.
Qed.

Lemma X3_requested_pairs_are_stored_witness :
  ∃ m, m ∈ tbl_downtime_reason
             (process_upload int_of_integer no_faults 7
                (Some (Build_upload [" Jam "; "jam"] [10%Z; 20%Z]))
                empty_database).2 ∧
    m_name m = "Jam" ∧ m_asset_id m = 20%Z ∧
    m_delete_status_id m = 0%Z ∧ m_updated_at m = 7%Z.
Proof.
  apply (X3_requested_pairs_are_stored int_of_integer no_faults 7
           (Build_upload [" Jam "; "jam"] [10%Z; 20%Z]) [10%Z; 20%Z]
           empty_database 4 4 4 _ "Jam" 20).
  - vm_compute. reflexivity.
  - reflexivity.
  - apply (bool_decide_unpack
             ("Jam" ∈ clean_reason_names [" Jam "; "jam"])).
    vm_compute. exact I.
  - apply (bool_decide_unpack (20%Z ∈ [10%Z; 20%Z])). vm_compute. exact I.
Defined.

(** X4. A call leaves alone every row whose pair it was not asked about: a
    row whose label is not a kept label of the request, or whose asset is
    not an asset of the request, is the same row at the same place after
    the call, whatever the answer. *)
Theorem X4_rows_not_requested_are_untouched {json} (int : json → option Z)
    faults now (data : upload json) ids db k m :
  mapM int (asset_ids data) = Some ids →
  tbl_downtime_reason db !! k = Some m →
  ¬ (m_name m ∈ clean_reason_names (reason_names data) ∧
     m_asset_id m ∈ ids) →
  tbl_downtime_reason (process_upload int faults now (Some data) db).2 !! k
    = Some m.
Proof.
  intros Hint Hk Hnot.
  destruct (process_upload_table_of int faults now data ids db Hint)
    as [->| ->]; [done|].
  unfold merged.
  rewrite list_lookup_fmap, (lookup_app_l_Some _ _ _ _ Hk). cbn.
  f_equal. apply refresh_not_joined. apply not_true_iff_false.
  rewrite joined_true. intros Hin. apply Hnot.
  by apply (elem_of_pairs_expand _ _ (m_name m) (m_asset_id m)).
Qed.

Lemma X4_rows_not_requested_are_untouched_witness :
  let row := {| m_name := "Jam"; m_asset_id := 30; m_delete_status_id := 5;
                m_created_at := 1; m_updated_at := 1 |} in
  tbl_downtime_reason
    (process_upload int_of_integer no_faults 7
       (Some (Build_upload [" Jam "; "jam"] [10%Z; 20%Z]))
       {| tbl_downtime_reason := [row]; received := [] |}).2 !! 0
  = Some row.
Proof.
  intros row.
  apply (X4_rows_not_requested_are_untouched int_of_integer no_faults 7
           (Build_upload [" Jam "; "jam"] [10%Z; 20%Z]) [10%Z; 20%Z]
           {| tbl_downtime_reason := [row]; received := [] |} 0 row).
  - reflexivity.
  - reflexivity.
  - intros [_ Hin].
    apply (bool_decide_pack (30%Z ∈ [10%Z; 20%Z])) in Hin.
    vm_compute in Hin. exact Hin.
Defined.



(** ** The importer *)




(** X9. Importing the same frame a second time adds no row: after a first
    import that succeeded, a second one (no statement failing) succeeds and
    the table has the same pairs, row by row. *)
Theorem X9_second_import_adds_no_row REASON_COLUMN ASSET_IDS faults now
    df db db1 faults' now' :
  importer_main REASON_COLUMN ASSET_IDS faults now df db
    = (Returned (), db1) →
  (∀ s, faults' s = false) →
  ∃ db2,
    importer_main REASON_COLUMN ASSET_IDS faults' now' df db1
      = (Returned (), db2) ∧
    pair_of_row <$> tbl_downtime_reason db2 =
    pair_of_row <$> tbl_downtime_reason db1.
Proof.
  unfold importer_main.
  destruct (load_excel_df REASON_COLUMN df) as [names|]; [|done].
  cbn. unfold upsert_data. intros Hfirst Hf.
  destruct (engine_begin faults _ db) as [[r|] db0] eqn:Hrun; [|done].
  injection Hfirst as ->.
  apply upsert_block_returned in Hrun as (_ & Hne & _ & ->).
  rewrite (upsert_block_commits _ _ _ _ Hf Hne). cbn -[merged].
  eexists. split; [done|]. cbn -[merged].
  by rewrite pairs_merged, nothing_absent_after_merge, app_nil_r.
Qed.

Lemma X9_second_import_adds_no_row_witness :
  ∃ db2,
    importer_main "reason" [10%Z; 20%Z] no_faults 8
      {| columns := [" Reason "]; rows := [[Text "a"]; [NaN]] |}
      (importer_main "reason" [10%Z; 20%Z] no_faults 7
         {| columns := [" Reason "]; rows := [[Text "a"]; [NaN]] |}
         empty_database).2
      = (Returned (), db2) ∧
    pair_of_row <$> tbl_downtime_reason db2 =
    pair_of_row <$> tbl_downtime_reason
      (importer_main "reason" [10%Z; 20%Z] no_faults 7
         {| columns := [" Reason "]; rows := [[Text "a"]; [NaN]] |}
         empty_database).2.
Proof.
  apply (X9_second_import_adds_no_row "reason" [10%Z; 20%Z] no_faults 7
           {| columns := [" Reason "]; rows := [[Text "a"]; [NaN]] |}
           empty_database _ no_faults 8).
  - vm_compute. reflexivity.
  - intros s. reflexivity.
Defined.

Lemma positions_once label labels j :
  labels !! j = Some label →
  (∀ j', labels !! j' = Some label → j' = j) →
  positions label labels = [j].
Proof.
  intros Hj Honly. unfold positions.
  apply Permutation_singleton_r, NoDup_Permutation.
  - apply NoDup_ListNoDup, List.NoDup_filter, NoDup_ListNoDup, NoDup_seq.
  - apply NoDup_singleton.
  - intros k. rewrite elem_of_List_filter, list_elem_of_singleton.
    rewrite bool_decide_eq_true, elem_of_seq. split.
    + intros [Hk _]. by apply Honly.
    + intros ->. split; [done|]. apply lookup_lt_Some in Hj. lia.
Qed.

(** X10. The reason column is found whatever the letter case and the
    surrounding whitespace, in the configuration and in the sheet: when the
    configured name (trimmed, then put in lower case, as the module does) is
    not empty and one label of the frame, and only one, is the same text up
    to case and surrounding whitespace, [load_excel] returns the reasons of
    that column. *)
Theorem X10_reason_column_found_up_to_case_and_spaces raw df j label :
  columns df !! j = Some label →
  lower (strip label) = lower (strip raw) →
  strip raw ≠ "" →
  (∀ j' label', columns df !! j' = Some label' →
                lower (strip label') = lower (strip raw) → j' = j) →
  load_excel_df (lower (strip raw)) df =
    Returned (load_excel (column j df)).
Proof.
  intros Hj Hsame Hne Honly. unfold load_excel_df.
  set (labels := (λ l, strip (lower l)) <$> columns df).
  assert (labels !! j = Some (lower (strip raw))) as Hlj.
  { unfold labels. rewrite list_lookup_fmap, Hj. cbn.
    by rewrite strip_lower, Hsame. }
  assert (nonempty (lower (strip raw)) = true) as ->.
  { apply nonempty_true. by rewrite lower_empty_iff. }
  rewrite bool_decide_eq_true_2 by (by eapply list_elem_of_lookup_2).
  rewrite (positions_once _ _ j Hlj); [done|].
  intros j' Hj'. unfold labels in Hj'.
  rewrite list_lookup_fmap in Hj'.
  destruct (columns df !! j') as [label'|] eqn:Hl'; [|done].
  cbn in Hj'. injection Hj' as Hj'. rewrite strip_lower in Hj'. eauto.
Qed.

Lemma X10_reason_column_found_up_to_case_and_spaces_witness :
  load_excel_df (lower (strip " Reason "))
    {| columns := ["Asset"; "REASON  "];
       rows := [[Text "x"; Text " Jam "]; [Text "y"; NaN]] |}
  = Returned
      (load_excel
         (column 1
            {| columns := ["Asset"; "REASON  "];
               rows := [[Text "x"; Text " Jam "]; [Text "y"; NaN]] |})).
Proof.
  apply (X10_reason_column_found_up_to_case_and_spaces " Reason "
           {| columns := ["Asset"; "REASON  "];
              rows := [[Text "x"; Text " Jam "]; [Text "y"; NaN]] |}
           1 "REASON  ").
  - reflexivity.
  - vm_compute. reflexivity.
  - vm_compute. discriminate.
  - intros [|[|j']] label' Hl Hsame; [|reflexivity|discriminate].
    cbn in Hl. injection Hl as <-. vm_compute in Hsame. discriminate.
Defined.

Lemma split_not_nil sep s : split sep s ≠ [].
Proof.
  destruct s as [|c s]; cbn; [done|].
  destruct (Ascii.eqb c sep); [done|]. by destruct (split sep s).
Qed.

(** X12. What holds once the module is configured: there is at least one
    asset id, one per comma-separated item of [ASSET_IDS]; the file path is
    not empty; the four PostgreSQL variables are set and not empty; and the
    reason column is in the form the labels of the sheet are put in (trimmed,
    lower case). *)
Theorem X12_configured_settings getenv int cfg :
  configure getenv int = Configured cfg →
  cfg_ASSET_IDS cfg ≠ [] ∧
  length (cfg_ASSET_IDS cfg) =
    length (split "," (default "" (getenv "ASSET_IDS"))) ∧
  cfg_FILE_PATH cfg ≠ "" ∧
  (truthy (getenv "PG_HOST") && truthy (getenv "PG_DBNAME") &&
   truthy (getenv "PG_USER") && truthy (getenv "PG_PASSWORD")) = true ∧
  strip (lower (cfg_REASON_COLUMN cfg)) = cfg_REASON_COLUMN cfg.
Proof.
  unfold configure.
  destruct (int (default "5432" (getenv "PG_PORT"))) as [port|]; [|done].
  destruct (truthy (getenv "PG_HOST") && truthy (getenv "PG_DBNAME") &&
            truthy (getenv "PG_USER") && truthy (getenv "PG_PASSWORD"));
    cbn; [|done].
  destruct (getenv "FILE_PATH") as [path|] eqn:Hpath; cbn; [|done].
  destruct (nonempty path) eqn:Hp; cbn; [|done].
  destruct (nonempty (default "" (getenv "ASSET_IDS"))); cbn; [|done].
  destruct (mapM _ _) as [ids|] eqn:Hids; [|done].
  intros [= <-]. cbn [cfg_ASSET_IDS cfg_FILE_PATH cfg_REASON_COLUMN default].
  pose proof (length_mapM _ _ _ Hids) as Hlen.
  split; [|split; [done|split; [by apply nonempty_true|split; [done|]]]].
  - intros ->. cbn in Hlen.
    by destruct (split_not_nil "," (default "" (getenv "ASSET_IDS")));
      apply nil_length_inv.
  - by rewrite lower_idemp, strip_lower, strip_idemp.
Qed.

Lemma X12_configured_settings_witness :
  let getenv := λ name : string,
    if String.eqb name "PG_PORT" then None
    else if String.eqb name "ASSET_IDS" then Some "10, 20"
    else if String.eqb name "FILE_PATH" then Some "reasons.xlsx"
    else if String.eqb name "REASON_COLUMN" then Some " Reason "
    else Some "x" in
  [10%Z; 20%Z] ≠ [] ∧
  length [10%Z; 20%Z] =
    length (split "," (default "" (getenv "ASSET_IDS"))) ∧
  "reasons.xlsx" ≠ "" ∧
  (truthy (getenv "PG_HOST") && truthy (getenv "PG_DBNAME") &&
   truthy (getenv "PG_USER") && truthy (getenv "PG_PASSWORD")) = true ∧
  strip (lower "reason") = "reason".
Proof.
  intros getenv.
  apply (X12_configured_settings getenv
           (λ s, if String.eqb s "5432" then Some 5432%Z
                 else if String.eqb s "10" then Some 10%Z
                 else if String.eqb s "20" then Some 20%Z
                 else None)
           {| cfg_PG_PORT := 5432; cfg_FILE_PATH := "reasons.xlsx";
              cfg_ASSET_IDS := [10%Z; 20%Z];
              cfg_REASON_COLUMN := "reason" |}).
  vm_compute. reflexivity.
Defined.

(** X13. An empty or blank item in [ASSET_IDS] (a trailing comma, two commas
    in a row) stops the importer while it is configured, [int] rejecting
    the empty text: the items are converted without being filtered. *)
Theorem X13_blank_asset_id_stops_the_importer getenv int v x :
  int "" = None →
  getenv "ASSET_IDS" = Some v →
  x ∈ split "," v →
  blank x = true →
  ∀ cfg, configure getenv int ≠ Configured cfg.
Proof.
  intros Hint Hv Hx Hblank cfg. unfold configure. rewrite Hv. cbn.
  destruct (int (default "5432" (getenv "PG_PORT"))) as [port|]; [|done].
  destruct (negb _); [done|]. destruct (negb _); [done|].
  destruct (negb _); [done|].
  assert (mapM (λ x, int (strip x)) (split "," v) = None) as ->; [|done].
  apply mapM_None_2, Exists_exists. exists x. split; [done|].
  by rewrite (strip_blank _ Hblank).
Qed.

Lemma X13_blank_asset_id_stops_the_importer_witness :
  ¬ ∃ cfg,
      configure (λ name : string, Some "10,20,")
        (λ s, if String.eqb s "" then None else Some 1%Z)
      = Configured cfg.
Proof.
  intros [cfg Hcfg]. revert Hcfg.
  apply (X13_blank_asset_id_stops_the_importer
           (λ name : string, Some "10,20,")
           (λ s, if String.eqb s "" then None else Some 1%Z)
           "10,20," "").
  - reflexivity.
  - reflexivity.
  - apply (bool_decide_unpack ("" ∈ split "," "10,20,")).
    vm_compute. exact I.
  - reflexivity.
Defined.

(** ** The assets route *)

Lemma split_only_separators s x :
  only_separators s = true → x ∈ split "," s → blank x = true.
Proof.
  revert x. induction s as [|c s IH]; cbn; intros x.
  - intros _ ->%list_elem_of_singleton. done.
  - intros [Hc Hs]%andb_true_iff.
    destruct (Ascii.eqb c ",") eqn:Hcomma.
    + intros [->|Hx]%elem_of_cons; [done|]. by apply IH.
    + cbn in Hc. destruct (split "," s) as [|item items] eqn:Hsplit.
      * intros ->%list_elem_of_singleton. cbn. by rewrite Hc.
      * intros [->|Hx]%elem_of_cons.
        -- cbn. rewrite Hc. cbn. apply IH; [done|]. by left.
        -- apply IH; [done|]. by right.
Qed.

(** X14. A [section_ids] argument made of commas and whitespace only selects
    no section: [get_assets] answers as it does without the argument, with
    the assets of the whole company. *)
Theorem X14_blank_section_ids_list_all_assets {asset}
    (int : string → option Z) (execute : assets_query → option (list asset))
    company_id section_ids :
  only_separators section_ids = true →
  get_assets int execute company_id section_ids =
  get_assets int execute company_id "".
Proof.
  intros Hsep. unfold get_assets.
  destruct (negb (truthy company_id)); [done|].
  destruct (int (default "" company_id)) as [company|]; [|done].
  destruct (nonempty section_ids); [|done].
  rewrite List_filter_none; [done|].
  intros x (s & -> & Hs)%list_elem_of_fmap.
  apply not_true_iff_false. rewrite nonempty_true. intros Hne. apply Hne.
  by apply strip_blank, (split_only_separators section_ids).
Qed.

Lemma X14_blank_section_ids_list_all_assets_witness :
  get_assets (λ s, Some 3%Z)
    (λ q, match q with
          | Assets_of_company _ => Some ["pump"; "valve"]
          | Assets_of_sections _ _ => Some ["pump"]
          end)
    (Some "3") " , ,"
  = get_assets (λ s, Some 3%Z)
      (λ q, match q with
            | Assets_of_company _ => Some ["pump"; "valve"]
            | Assets_of_sections _ _ => Some ["pump"]
            end)
      (Some "3") "".
Proof.
  apply (X14_blank_section_ids_list_all_assets (λ s, Some 3%Z)
           (λ q, match q with
                 | Assets_of_company _ => Some ["pump"; "valve"]
                 | Assets_of_sections _ _ => Some ["pump"]
                 end)
           (Some "3") " , ,").
  reflexivity.
Defined.

(** ** The parsing route *)

Lemma elem_of_unique_from seen values v :
  v ∈ unique_from seen values ↔ v ∈ values ∧ v ∉ seen.
Proof.
  revert seen. induction values as [|x values IH]; intros seen; cbn.
  - rewrite elem_of_nil. tauto.
  - case_decide as Hseen; rewrite ?elem_of_cons, IH, ?elem_of_cons.
    + split; [tauto|]. intros [[->|?] ?]; tauto.
    + destruct (decide (v = x)) as [->|]; tauto.
Qed.

Lemma NoDup_unique_from seen values : NoDup (unique_from seen values).
Proof.
  revert seen. induction values as [|x values IH]; intros seen; cbn.
  - constructor.
  - case_decide; [done|]. apply NoDup_cons. split; [|done].
    rewrite elem_of_unique_from, elem_of_cons. tauto.
Qed.

Lemma elem_of_dropna cells s : s ∈ dropna cells ↔ Text s ∈ cells.
Proof.
  unfold dropna. rewrite list_elem_of_omap. split.
  - intros ([s'|] & Hc & [= <-]). done.
  - intros Hc. exists (Text s). done.
Qed.

Lemma elem_of_column_values cells v :
  v ∈ column_values cells ↔ v ≠ "" ∧ ∃ s, Text s ∈ cells ∧ v = strip s.
Proof.
  unfold column_values, unique.
  rewrite elem_of_unique_from, elem_of_List_filter, nonempty_true.
  rewrite list_elem_of_fmap, elem_of_nil.
  setoid_rewrite elem_of_dropna. split.
  - intros [(Hne & s & -> & Hs) _]. eauto.
  - intros (Hne & s & Hs & ->). split; [eauto|tauto].
Qed.

(** A listed value is not empty and is already trimmed. *)
Lemma column_values_clean cells v :
  v ∈ column_values cells → v ≠ "" ∧ strip v = v.
Proof.
  intros (Hne & s & _ & ->)%elem_of_column_values.
  split; [done|apply strip_idemp].
Qed.

Lemma NoDup_positions_once labels :
  (∀ label, label ∈ labels → ∃ j, positions label labels = [j]) →
  NoDup labels.
Proof.
  intros Honce. apply NoDup_alt. intros i j label Hi Hj.
  destruct (Honce label) as [k Hk]; [by eapply list_elem_of_lookup_2|].
  assert (∀ i', labels !! i' = Some label → i' = k) as Hall.
  { intros i' Hi'. apply list_elem_of_singleton. rewrite <- Hk.
    unfold positions. apply elem_of_List_filter.
    rewrite bool_decide_eq_true, elem_of_seq. split; [done|].
    apply lookup_lt_Some in Hi'. lia. }
  by rewrite (Hall i Hi), (Hall j Hj).
Qed.

Section ParseFacts.

Context {bytes : Type} (read_excel read_csv : bytes → option DataFrame).

(** A 200 answer comes from a frame that a reader returned. *)
Lemma parse_file_ok_inv file cols preview data n :
  parse_file read_excel read_csv file = Parse200 cols preview data n →
  ∃ df,
    df_empty df = false ∧
    cols = strip <$> columns df ∧
    preview = (λ row : list cell, fillna_str <$> row) <$> take 5 (rows df) ∧
    n = length (rows df) ∧
    mapM (λ col,
            match positions col cols with
            | [j] => Some (col, column_values (column j df))
            | _ => None
            end) cols = Some data.
Proof.
  unfold parse_file. destruct file as [[filename content]|]; [|done].
  destruct (String.eqb filename ""); [done|].
  destruct (endswith (lower filename) ".xlsx"
            || endswith (lower filename) ".xls").
  - destruct (read_excel content) as [df|]; [|done].
    destruct (df_empty df) eqn:He; [done|].
    destruct (mapM _ _) as [data'|] eqn:Hd; [|done].
    intros [= <- <- <- <-]. exists df. done.
  - destruct (endswith (lower filename) ".csv"); [|done].
    destruct (read_csv content) as [df|]; [|done].
    destruct (df_empty df) eqn:He; [done|].
    destruct (mapM _ _) as [data'|] eqn:Hd; [|done].
    intros [= <- <- <- <-]. exists df. done.
Qed.

(** The entries of [column_data] are, column by column, the values of the
    columns of the frame. *)
Lemma column_data_entries (df : DataFrame) cols data :
  mapM (λ col,
          match positions col cols with
          | [j] => Some (col, column_values (column j df))
          | _ => None
          end) cols = Some data →
  data.*1 = cols ∧
  NoDup cols ∧
  ∀ col values, (col, values) ∈ data →
    ∃ j, cols !! j = Some col ∧ values = column_values (column j df).
Proof.
  intros Hd. apply mapM_Some in Hd.
  assert (∀ col entry,
            match positions col cols with
            | [j] => Some (col, column_values (column j df))
            | _ => None
            end = Some entry →
            ∃ j, positions col cols = [j] ∧
                 entry = (col, column_values (column j df))) as Hentry.
  { intros col entry H. destruct (positions col cols) as [|j [|]]; [done| |done].
    injection H as <-. eauto. }
  split; [|split].
  - induction Hd as [|col entry cs es H _ IH]; [done|].
    apply Hentry in H as (j & _ & ->). cbn. by rewrite IH.
  - apply NoDup_positions_once. intros col Hcol.
    apply list_elem_of_lookup_1 in Hcol as [i Hi].
    destruct (Forall2_lookup_l _ _ _ _ _ Hd Hi) as (entry & _ & H).
    apply Hentry in H as (j & Hj & _). eauto.
  - intros col values Hin.
    apply list_elem_of_lookup_1 in Hin as [i Hi].
    destruct (Forall2_lookup_r _ _ _ _ _ Hd Hi) as (col' & Hc & H).
    apply Hentry in H as (j & Hj & [= <- ->]).
    exists j. split; [|done].
    assert (j ∈ positions col cols) as Hjin by (rewrite Hj; by left).
    unfold positions in Hjin. apply elem_of_List_filter in Hjin as [Hjin _].
    by apply bool_decide_eq_true in Hjin.
Qed.

End ParseFacts.

Lemma parsed_values_clean {bytes}
    (read_excel read_csv : bytes → option DataFrame)
    file cols preview data n col values :
  parse_file read_excel read_csv file = Parse200 cols preview data n →
  (col, values) ∈ data →
  NoDup values ∧ ∀ v, v ∈ values → v ≠ "" ∧ strip v = v.
Proof.
  intros Hok Hin.
  apply parse_file_ok_inv in Hok as (df & _ & -> & _ & _ & Hd).
  apply column_data_entries in Hd as (_ & _ & Hvals).
  destruct (Hvals col values Hin) as (j & _ & ->).
  split; [apply NoDup_unique_from|]. intros v. apply column_values_clean.
Qed.

(** X16. What a 200 answer of [parse_file] holds: the frame had a row and a
    column; the labels are distinct; [column_data] has one entry per label,
    in the order of the labels; at most five rows are previewed; and the
    values listed for a column are distinct, not empty and trimmed. *)
Theorem X16_shape_of_a_parsed_file {bytes}
    (read_excel read_csv : bytes → option DataFrame)
    file cols preview data n :
  parse_file read_excel read_csv file = Parse200 cols preview data n →
  1 ≤ n ∧ cols ≠ [] ∧ NoDup cols ∧ data.*1 = cols ∧
  length preview = min 5 n ∧
  ∀ col values, (col, values) ∈ data →
    NoDup values ∧ ∀ v, v ∈ values → v ≠ "" ∧ strip v = v.
Proof.
  intros Hok.
  apply parse_file_ok_inv in Hok as (df & He & -> & -> & -> & Hd).
  apply column_data_entries in Hd as (Hkeys & Hnd & Hvals).
  unfold df_empty in He.
  destruct (rows df) as [|row rs] eqn:Hrows; [done|].
  destruct (columns df) as [|c cs] eqn:Hcols; [done|].
  split; [cbn; lia|]. split; [done|]. split; [done|]. split; [done|].
  split; [by rewrite length_fmap, length_take|].
  intros col values Hin.
  destruct (Hvals col values Hin) as (j & _ & ->).
  split; [apply NoDup_unique_from|]. intros v. apply column_values_clean.
Qed.

Lemma X16_shape_of_a_parsed_file_witness :
  let df := {| columns := [" Reason"; "Asset "];
               rows := [[Text " Jam "; Text "x"]; [NaN; Text "x"];
                        [Text "Jam"; NaN]] |} in
  1 ≤ 3 ∧ ["Reason"; "Asset"] ≠ [] ∧ NoDup ["Reason"; "Asset"] ∧
  [("Reason", ["Jam"]); ("Asset", ["x"])].*1 = ["Reason"; "Asset"] ∧
  length [[" Jam "; "x"]; [""; "x"]; ["Jam"; ""]] = min 5 3 ∧
  ∀ col values, (col, values) ∈ [("Reason", ["Jam"]); ("Asset", ["x"])] →
    NoDup values ∧ ∀ v, v ∈ values → v ≠ "" ∧ strip v = v.
Proof.
  intros df.
  apply (X16_shape_of_a_parsed_file (λ _ : unit, Some df) (λ _, None)
           (Some ("Reasons.XLSX", ()))).
  vm_compute. reflexivity.
Defined.

(** X17. The labels that [parse_file] lists for a column are accepted as
    they are by [process_upload]: cleaning them keeps all of them and
    changes none, and, sent with asset ids that convert, they are processed
    with total_processed = (number of listed values) x (number of asset
    ids) when no statement fails. *)
Theorem X17_parsed_labels_are_processed_as_listed {bytes json}
    (read_excel read_csv : bytes → option DataFrame)
    file cols preview data n col values
    (int : json → option Z) faults now assets ids db :
  parse_file read_excel read_csv file = Parse200 cols preview data n →
  (col, values) ∈ data →
  clean_reason_names values ≡ₚ values ∧
  (values ≠ [] → ids ≠ [] → mapM int assets = Some ids →
   (∀ s, faults s = false) →
   ∃ i u db',
     process_upload int faults now (Some (Build_upload values assets)) db =
       (Ok200 i u (length values * length ids), db')).
Proof.
  intros Hok Hin.
  destruct (parsed_values_clean read_excel read_csv file cols preview data n
              col values Hok Hin) as [Hnd Hclean].
  assert (clean_reason_names values ≡ₚ values) as Hperm.
  { apply NoDup_Permutation; [apply NoDup_clean_reason_names|done|].
    intros v. rewrite elem_of_clean_reason_names. split.
    - intros (Hne & r & Hr & ->). destruct (Hclean r Hr) as [_ ->]. done.
    - intros Hv. destruct (Hclean v Hv) as [Hne Hs]. eauto. }
  split; [done|]. intros Hv Hids Hint Hf. unfold process_upload. cbn.
  destruct values as [|v vs]; [done|].
  destruct assets as [|a k]; [cbn in Hint; by injection Hint as <-|].
  rewrite Hint.
  destruct (clean_reason_names (v :: vs)) as [|r l] eqn:Hc.
  { apply Permutation_nil_l in Hperm. done. }
  rewrite (upsert_block_commits _ _ _ _ Hf
             (handler_records_not_nil int _ _ _ _ _ Hint)).
  do 3 eexists. f_equal. f_equal.
  by rewrite length_expand, (Permutation_length Hperm).
Qed.

Lemma X17_parsed_labels_are_processed_as_listed_witness :
  let df := {| columns := [" Reason"];
               rows := [[Text " Jam "]; [NaN]; [Text "jam"]] |} in
  clean_reason_names ["Jam"; "jam"] ≡ₚ ["Jam"; "jam"] ∧
  (["Jam"; "jam"] ≠ [] → [10%Z; 20%Z] ≠ [] →
   mapM int_of_integer [10%Z; 20%Z] = Some [10%Z; 20%Z] →
   (∀ s, no_faults s = false) →
   ∃ i u db',
     process_upload int_of_integer no_faults 7
       (Some (Build_upload ["Jam"; "jam"] [10%Z; 20%Z])) empty_database =
       (Ok200 i u (length ["Jam"; "jam"] * length [10%Z; 20%Z]), db')).
Proof.
  intros df.
  apply (X17_parsed_labels_are_processed_as_listed
           (λ _ : unit, Some df) (λ _, None) (Some ("reasons.csv.xls", ()))
           ["Reason"] [[" Jam "]; [""]; ["jam"]]
           [("Reason", ["Jam"; "jam"])] 3 "Reason" ["Jam"; "jam"]).
  - vm_compute. reflexivity.
  - apply list_elem_of_singleton. reflexivity.
Defined.

(** X18. The two ways of reading a column differ on blank cells only.
    [parse_file] drops the blank cells before it converts the cells to
    text; the importer does not. Where pandas turns a missing value into
    the text "nan", the importer loads a label exactly when [parse_file]
    lists it for the same cells, or when the label is "nan" and the column
    has a blank cell. Where pandas keeps the missing values, the importer
    loads the texts [parse_file] lists, and the missing value exactly when
    the column has a blank cell. *)
Theorem X18_importer_and_parser_differ_on_blank_cells (cells : list cell) :
  (∀ v, v ∈ load_excel cells ↔
        v ∈ column_values cells ∨ (v = "nan" ∧ NaN ∈ cells)) ∧
  (∀ v, Text v ∈ load_excel_keeping_missing cells ↔
        v ∈ column_values cells) ∧
  (NaN ∈ load_excel_keeping_missing cells ↔ NaN ∈ cells).
Proof.
  split; [|split].
  - intros v. rewrite elem_of_load_excel, elem_of_column_values. split.
    + intros (Hne & [s|] & Hc & ->); [left; eauto|right; done].
    + intros [(Hne & s & Hs & ->)|[-> Hnan]].
      * split; [done|]. exists (Text s). done.
      * split; [done|]. exists NaN. done.
  - intros v. unfold load_excel_keeping_missing.
    rewrite elem_of_List_filter, list_elem_of_fmap, elem_of_column_values.
    rewrite negb_true_iff, bool_decide_eq_false. split.
    + intros (Hne & [s|] & Hv & Hc); [|done].
      injection Hv as ->. split; [congruence|eauto].
    + intros (Hne & s & Hs & ->). split; [congruence|].
      exists (Text s). done.
  - unfold load_excel_keeping_missing.
    rewrite elem_of_List_filter, list_elem_of_fmap. split.
    + intros (_ & [s|] & Hv & Hc); done.
    + intros Hc. split; [done|]. exists NaN. done.
Qed.

(** X19. The format of an uploaded file is chosen from its name without
    regard to letter case: a file is parsed as the file of the same content
    whose name is in lower case. *)
Theorem X19_file_format_ignores_letter_case {bytes}
    (read_excel read_csv : bytes → option DataFrame)
    (filename : string) (content : bytes) :
  parse_file read_excel read_csv (Some (filename, content)) =
  parse_file read_excel read_csv (Some (lower filename, content)).
Proof.
  unfold parse_file. rewrite lower_idemp.
  destruct filename as [|c s]; [done|]. done.
Qed.

(** ** The importer and the handler side by side *)

(** X15. For reasons and asset ids without repetition the importer stages
    exactly the rows the handler builds, in the same order: dropping the
    repeated pairs drops nothing. *)
Theorem X15_importer_stages_what_the_handler_builds (ASSET_IDS : list Z)
    (df : list string) :
  NoDup df → NoDup ASSET_IDS →
  expand_per_asset ASSET_IDS df = expand df ASSET_IDS.
Proof.
  intros Hdf Hids. unfold expand_per_asset, drop_duplicates.
  apply drop_duplicates_from_NoDup.
  - by apply NoDup_pairs_expand.
  - intros p _. apply not_elem_of_nil.
Qed.

Lemma X15_importer_stages_what_the_handler_builds_witness :
  expand_per_asset [10%Z; 20%Z] ["Jam"; "jam"] =
  expand ["Jam"; "jam"] [10%Z; 20%Z].
Proof.
  apply (X15_importer_stages_what_the_handler_builds [10%Z; 20%Z]
           ["Jam"; "jam"]).
  - apply (bool_decide_unpack (NoDup ["Jam"; "jam"])). vm_compute. exact I.
  - apply (bool_decide_unpack (NoDup [10%Z; 20%Z])). vm_compute. exact I.
Defined.

(** X11. The importer stops before the first statement when the reason
    column cannot be determined: the configured name is not a label of the
    sheet (labels in lower case, trimmed); or no name is configured and the
    sheet has no column; or the configured name is the form of two labels
    of the sheet. The store is left as it was. *)
Theorem X11_importer_stops_without_a_reason_column REASON_COLUMN ASSET_IDS
    faults now df db :
  (REASON_COLUMN ≠ "" ∧
   REASON_COLUMN ∉ (λ l, strip (lower l)) <$> columns df) ∨
  (REASON_COLUMN = "" ∧ columns df = []) ∨
  (REASON_COLUMN ≠ "" ∧
   ∃ j1 j2, j1 ≠ j2 ∧
     ((λ l, strip (lower l)) <$> columns df) !! j1 = Some REASON_COLUMN ∧
     ((λ l, strip (lower l)) <$> columns df) !! j2 = Some REASON_COLUMN) →
  importer_main REASON_COLUMN ASSET_IDS faults now df db = (Raised, db).
Proof.
  unfold importer_main, load_excel_df.
  set (labels := (λ l, strip (lower l)) <$> columns df).
  intros [[Hne Hnot]|[[-> Hnil]|(Hne & j1 & j2 & Hj & H1 & H2)]].
  - apply nonempty_true in Hne. rewrite Hne.
    by rewrite bool_decide_eq_false_2.
  - unfold labels. rewrite Hnil. done.
  - apply nonempty_true in Hne. rewrite Hne.
    rewrite bool_decide_eq_true_2 by (by eapply list_elem_of_lookup_2).
    assert (∀ j, labels !! j = Some REASON_COLUMN →
                 j ∈ positions REASON_COLUMN labels) as Hin.
    { intros j Hl. unfold positions. apply elem_of_List_filter.
      rewrite bool_decide_eq_true, elem_of_seq. split; [done|].
      apply lookup_lt_Some in Hl. lia. }
    pose proof (Hin j1 H1) as Hin1. pose proof (Hin j2 H2) as Hin2.
    destruct (positions REASON_COLUMN labels) as [|j [|j' js]]; [done| |done].
    apply list_elem_of_singleton in Hin1, Hin2. congruence.
Qed.

Lemma X11_importer_stops_without_a_reason_column_witness :
  importer_main "reason" [10%Z] no_faults 7
    {| columns := ["Reason"; " reason "];
       rows := [[Text "a"; Text "b"]] |} empty_database
  = (Raised, empty_database).
Proof.
  apply (X11_importer_stops_without_a_reason_column "reason" [10%Z]
           no_faults 7
           {| columns := ["Reason"; " reason "];
              rows := [[Text "a"; Text "b"]] |} empty_database).
  right. right. split; [discriminate|].
  exists 0, 1. split; [discriminate|]. split; vm_compute; reflexivity.
Defined.
